(** * Azure hooks of airflow.contrib.hooks.wasb_hook

    A shallow embedding of [WasbHook] and [FileShareHook]
    (src/airflow/contrib/hooks/wasb_hook.py).

    Both classes are thin adapters: the constructor resolves a connection
    record and builds a client of the Azure SDK, every other method forwards
    one call to that client.  The SDK ([BlockBlobService], [FileService]) and
    the connection lookup of [BaseHook] are outside the file; they are the
    _environment_ of the hooks, an arbitrary handler of the external calls
    [ext].  The hooks are programs in a state-and-exception monad over a world
    that holds the state of the environment and the trace of the external
    calls made so far, which is what a recording stub client would see. *)

From stdpp Require Import base option list strings gmap fin_maps.

Set Default Proof Using "Type".
Local Open Scope string_scope.
Local Open Scope list_scope.
Local Open Scope stdpp_scope.

(** ** Python values, keyword arguments, exceptions *)

(** The Python objects that travel through the hooks as option values or as
    results the hooks never look into. *)
Inductive pyval :=
| VNone
| VBool (b : bool)
| VInt (n : Z)
| VStr (s : string).

(** A [**kwargs] dictionary: string keys, arbitrary values. *)
Abbreviation kwargs := (gmap string pyval).

(** What the Azure SDK may raise, by kind. *)
Inductive vendor_error :=
| AuthenticationFailure
| NotFound
| NetworkFailure
| PermissionDenied
| MalformedOptions.

Inductive exn :=
| TypeError (msg : string)             (* raised by the Python runtime *)
| AirflowException (msg : string)      (* raised by [BaseHook] *)
| IOError (path : string)              (* local file system *)
| AzureException (kind : vendor_error).

(** The result of running Python code: a value, or a raised exception. *)
Inductive outcome (A : Type) :=
| Returned (a : A)
| Raised (e : exn).
Arguments Returned {A} a.
Arguments Raised {A} e.

(** ** The external interface *)

(** Modelled from the spec: the Connection class of airflow.models is not in
    the source file.  The record has the three fields of the spec's
    Connection Record, the ones the hooks read: [login] (account name),
    [password] (account key) and the options mapping, which the code reads
    as [conn.extra_dejson]. *)
Record Connection := mkConnection {
  login : string;
  password : string;
  extra_dejson : kwargs;
}.

(** A constructed SDK client is an object; the hooks hold a reference. *)
Definition client := nat.
(** A caller-supplied open output stream (a file-like object). *)
Definition stream := nat.

(** The properties-and-metadata objects the downloads return. *)
Record Blob := mkBlob { blob_props_name : string; blob_props_length : nat }.
Record File := mkFile { file_props_name : string; file_props_length : nat }.

(** The external calls of the file, indexed by the type of their result.
    Positional arguments are constructor arguments in call order; keyword
    arguments are one dictionary. [Get_connection] is
    [BaseHook.get_connection]; the others belong to the SDK. [List_blobs]
    is the call of [list_blobs] together with the iteration of the iterable
    it returns, which the hook consumes at once with [list(...)]. *)
Inductive ext : Type → Type :=
| Get_connection (conn_id : string) : ext Connection
| BlockBlobService_new (keywords : kwargs) : ext client
| FileService_new (keywords : kwargs) : ext client
| Blob_exists (c : client) (container_name blob_name : string)
    (keywords : kwargs) : ext bool
| List_blobs (c : client) (container_name prefix : string)
    (keywords : kwargs) : ext (list Blob)
| Get_blob_to_path (c : client) (container_name blob_name file_path : string)
    (keywords : kwargs) : ext Blob
| Get_blob_to_stream (c : client) (container_name blob_name : string)
    (out : stream) (keywords : kwargs) : ext Blob
| Create_blob_from_path (c : client)
    (container_name blob_name file_path : string)
    (keywords : kwargs) : ext pyval
| Create_blob_from_text (c : client)
    (container_name blob_name text : string)
    (keywords : kwargs) : ext pyval
| File_exists (c : client) (share_name : string)
    (directory_name file_name : option string)
    (keywords : kwargs) : ext bool
| Get_file_to_path (c : client)
    (share_name directory_name file_name file_path : string)
    (keywords : kwargs) : ext File
| Get_file_to_stream (c : client)
    (share_name directory_name file_name : string) (out : stream)
    (keywords : kwargs) : ext File
| Create_file_from_path (c : client)
    (share_name directory_name file_name file_path : string)
    (keywords : kwargs) : ext pyval
| Create_file_from_text (c : client)
    (share_name directory_name file_name text : string)
    (keywords : kwargs) : ext pyval.

(** One entry of the trace: an external call, whatever its result type. *)
Inductive event :=
| Ev {X : Type} (e : ext X).

(** An environment answers every external call from its own state [S]: it
    returns or raises, and moves to a new state. *)
Class Env (S : Type) := answer : ∀ X, ext X → S → outcome X * S.
Arguments answer {S _ X} e s.

(** ** The monad of the hooks *)

Record world (S : Type) := mkWorld {
  ext_state : S;
  trace : list event;
}.
Arguments mkWorld {S} _ _.
Arguments ext_state {S} _.
Arguments trace {S} _.

Definition M (S A : Type) := world S → outcome A * world S.

Definition ret {S A} (a : A) : M S A := λ w, (Returned a, w).

Definition bind {S A B} (m : M S A) (k : A → M S B) : M S B :=
  λ w, match m w with
       | (Returned a, w') => k a w'
       | (Raised e, w') => (Raised e, w')
       end.

#[global] Instance M_ret {S} : MRet (M S) := λ A, ret.
#[global] Instance M_bind {S} : MBind (M S) := λ A B k m, bind m k.

(** Performing an external call: the environment answers, the call is
    appended to the trace. *)
Definition call {S} `{!Env S} {X} (e : ext X) : M S X :=
  λ w, let '(r, s') := answer e (ext_state w) in
       (r, mkWorld s' (trace w ++ [Ev e])).

(** Python's evaluation of the keyword part of a call [f(k1=v1, ..., **d)]:
    the explicit keywords are merged with the dictionary; a key given twice
    is a [TypeError] raised at the call site, before [f] is entered. *)
Fixpoint merge_keywords (fname : string) (explicit : list (string * pyval))
    (d : kwargs) : outcome kwargs :=
  match explicit with
  | [] => Returned d
  | (k, v) :: rest =>
      match d !! k with
      | Some _ =>
          Raised (TypeError
            (fname +:+ "() got multiple values for keyword argument '" +:+ k +:+ "'"))
      | None =>
          match merge_keywords fname rest d with
          | Returned d' => Returned (<[k := v]> d')
          | Raised e => Raised e
          end
      end
  end.

(** A pure computation that may raise, run inside the monad. *)
Definition lift {S A} (r : outcome A) : M S A := λ w, (r, w).

Definition keywords {S} (fname : string) (explicit : list (string * pyval))
    (d : kwargs) : M S kwargs :=
  lift (merge_keywords fname explicit d).

(** How a hook is instantiated: [Hook()], [Hook(v)] or [Hook(name=v)]. *)
Inductive init_args :=
| NoArgument
| Positional (v : string)
| Keyword (name v : string).

(** Python's binding of the arguments of an instantiation to the one
    parameter of [__init__(self, param=default)]. *)
Definition bind_init_args (param default : string) (a : init_args)
    : outcome string :=
  match a with
  | NoArgument => Returned default
  | Positional v => Returned v
  | Keyword name v =>
      if decide (name = param) then Returned v
      else Raised (TypeError
             ("__init__() got an unexpected keyword argument '" +:+ name +:+ "'"))
  end.

(** The first of the names [params] that the dictionary [kw] holds too. *)
Fixpoint first_given (params : list string) (kw : kwargs) : option string :=
  match params with
  | [] => None
  | p :: rest =>
      match kw !! p with
      | Some _ => Some p
      | None => first_given rest kw
      end
  end.

(** Python's binding of a call [m(a1, ..., an, **kw)] to a signature
    [def m(p1, ..., pn, **kwargs)] whose parameters are all bound already: a
    keyword of [kw] named like one of them is a second value for it, a
    [TypeError] raised before the body of [m] runs; any other keyword goes
    to [kwargs]. *)
Definition bind_options (fname : string) (params : list string)
    (kw : kwargs) : outcome unit :=
  match first_given params kw with
  | Some p =>
      Raised (TypeError
        (fname +:+ "() got multiple values for argument '" +:+ p +:+ "'"))
  | None => Returned ()
  end.

(** [len(list(matches)) > 0] *)
Definition nonempty {A} (l : list A) : bool := bool_decide (0 < length l).

(** ** class WasbHook *)

Module WasbHook.

(** The attributes of an instance. *)
Record t := mk { conn_id : string; connection : client }.

(** The default of the parameter [wasb_conn_id] of [__init__]. *)
Definition default_wasb_conn_id : string := "wasb_default".
Definition init_param_name : string := "wasb_conn_id".

Section methods.
Context {S : Type} `{!Env S}.

(** [get_conn(self)]; of [self] only [conn_id] is read (and, during
    [__init__], only [conn_id] is set). *)
Definition get_conn (self_conn_id : string) : M S client :=
  conn ← call (Get_connection self_conn_id);
  let service_options := extra_dejson conn in
  kw ← keywords "BlockBlobService"
         [("account_name", VStr (login conn));
          ("account_key", VStr (password conn))] service_options;
  call (BlockBlobService_new kw).

(** [__init__(self, wasb_conn_id='wasb_default')] *)
Definition init (wasb_conn_id : string) : M S t :=
  let self_conn_id := wasb_conn_id in
  c ← get_conn self_conn_id;
  mret (mk self_conn_id c).

(** The expression [WasbHook(...)]. *)
Definition new (a : init_args) : M S t :=
  wasb_conn_id ← lift (bind_init_args init_param_name
                         default_wasb_conn_id a);
  init wasb_conn_id.

Definition check_for_blob (self : t) (container_name blob_name : string)
    (kw : kwargs) : M S bool :=
  call (Blob_exists (connection self) container_name blob_name kw).

Definition check_for_prefix (self : t) (container_name prefix : string)
    (kw : kwargs) : M S bool :=
  kw' ← keywords "list_blobs" [("num_results", VInt 1)] kw;
  matches ← call (List_blobs (connection self) container_name prefix kw');
  mret (nonempty matches).

Definition get_blob_to_path (self : t)
    (container_name blob_name file_path : string) (kw : kwargs)
    : M S Blob :=
  call (Get_blob_to_path (connection self) container_name blob_name
          file_path kw).

Definition get_blob_to_stream (self : t)
    (container_name blob_name : string) (out : stream) (kw : kwargs)
    : M S Blob :=
  call (Get_blob_to_stream (connection self) container_name blob_name
          out kw).

Definition load_file (self : t)
    (file_path container_name blob_name : string) (kw : kwargs)
    : M S pyval :=
  call (Create_blob_from_path (connection self) container_name blob_name
          file_path kw);;
  mret VNone.

Definition load_string (self : t)
    (string_data container_name blob_name : string) (kw : kwargs)
    : M S pyval :=
  call (Create_blob_from_text (connection self) container_name blob_name
          string_data kw);;
  mret VNone.

End methods.
End WasbHook.

(** ** class FileShareHook *)

Module FileShareHook.

Record t := mk { conn_id : string; connection : client }.

Definition default_wasb_conn_id : string := "wasb_default".
Definition init_param_name : string := "wasb_conn_id".

Section methods.
Context {S : Type} `{!Env S}.

Definition get_conn (self_conn_id : string) : M S client :=
  conn ← call (Get_connection self_conn_id);
  let service_options := extra_dejson conn in
  kw ← keywords "FileService"
         [("account_name", VStr (login conn));
          ("account_key", VStr (password conn))] service_options;
  call (FileService_new kw).

Definition init (wasb_conn_id : string) : M S t :=
  let self_conn_id := wasb_conn_id in
  c ← get_conn self_conn_id;
  mret (mk self_conn_id c).

(** The expression [FileShareHook(...)]. *)
Definition new (a : init_args) : M S t :=
  wasb_conn_id ← lift (bind_init_args init_param_name
                         default_wasb_conn_id a);
  init wasb_conn_id.

(** [check_for_file(self, share_name, directory_name=None,
    file_name=None, **kwargs)]: an omitted argument is [None]. *)
Definition check_for_file (self : t) (share_name : string)
    (directory_name file_name : option string) (kw : kwargs)
    : M S bool :=
  call (File_exists (connection self) share_name directory_name
          file_name kw).

Definition get_file_to_path (self : t)
    (share_name directory_name file_name file_path : string)
    (kw : kwargs) : M S File :=
  call (Get_file_to_path (connection self) share_name directory_name
          file_name file_path kw).

Definition get_file_to_stream (self : t)
    (share_name directory_name file_name : string) (out : stream)
    (kw : kwargs) : M S File :=
  call (Get_file_to_stream (connection self) share_name directory_name
          file_name out kw).

Definition load_file (self : t)
    (file_path share_name directory_name file_name : string)
    (kw : kwargs) : M S pyval :=
  call (Create_file_from_path (connection self) share_name directory_name
          file_name file_path kw);;
  mret VNone.

Definition load_string (self : t)
    (string_data share_name directory_name file_name : string)
    (kw : kwargs) : M S pyval :=
  call (Create_file_from_text (connection self) share_name directory_name
          file_name string_data kw);;
  mret VNone.

End methods.
End FileShareHook.

(** ** The storage operations, as data

    A call of one of the forwarding methods of a hook, indexed by the type of
    its result. The call is in normal form: the arguments of a constructor
    are the values the caller has bound to the parameters of the method (an
    omitted [directory_name] or [file_name] being [None]), and [kw] holds the
    keyword arguments given besides. [run_blob] and [run_file] bind [kw]
    against the signature and run the body of the method. *)

Inductive blob_op : Type → Type :=
| Check_for_blob (container_name blob_name : string) (kw : kwargs)
    : blob_op bool
| Check_for_prefix (container_name prefix : string) (kw : kwargs)
    : blob_op bool
| Blob_to_path (container_name blob_name file_path : string) (kw : kwargs)
    : blob_op Blob
| Blob_to_stream (container_name blob_name : string) (out : stream)
    (kw : kwargs) : blob_op Blob
| Blob_load_file (file_path container_name blob_name : string) (kw : kwargs)
    : blob_op pyval
| Blob_load_string (string_data container_name blob_name : string)
    (kw : kwargs) : blob_op pyval.

Inductive file_op : Type → Type :=
| Check_for_file (share_name : string) (directory_name file_name : option string)
    (kw : kwargs) : file_op bool
| File_to_path (share_name directory_name file_name file_path : string)
    (kw : kwargs) : file_op File
| File_to_stream (share_name directory_name file_name : string)
    (out : stream) (kw : kwargs) : file_op File
| File_load_file (file_path share_name directory_name file_name : string)
    (kw : kwargs) : file_op pyval
| File_load_string (string_data share_name directory_name file_name : string)
    (kw : kwargs) : file_op pyval.

(** The names a call of the method has bound already: [self] and the
    parameters of the signature, in order. *)
Definition blob_params {A} (o : blob_op A) : list string :=
  match o with
  | Check_for_blob _ _ _ => ["self"; "container_name"; "blob_name"]
  | Check_for_prefix _ _ _ => ["self"; "container_name"; "prefix"]
  | Blob_to_path _ _ _ _ =>
      ["self"; "container_name"; "blob_name"; "file_path"]
  | Blob_to_stream _ _ _ _ =>
      ["self"; "container_name"; "blob_name"; "stream"]
  | Blob_load_file _ _ _ _ =>
      ["self"; "file_path"; "container_name"; "blob_name"]
  | Blob_load_string _ _ _ _ =>
      ["self"; "string_data"; "container_name"; "blob_name"]
  end.

Definition file_params {A} (o : file_op A) : list string :=
  match o with
  | Check_for_file _ _ _ _ =>
      ["self"; "share_name"; "directory_name"; "file_name"]
  | File_to_path _ _ _ _ _ =>
      ["self"; "share_name"; "directory_name"; "file_name"; "file_path"]
  | File_to_stream _ _ _ _ _ =>
      ["self"; "share_name"; "directory_name"; "file_name"; "stream"]
  | File_load_file _ _ _ _ _ =>
      ["self"; "file_path"; "share_name"; "directory_name"; "file_name"]
  | File_load_string _ _ _ _ _ =>
      ["self"; "string_data"; "share_name"; "directory_name"; "file_name"]
  end.

(** The keywords the body of the method passes itself in its one call. *)
Definition blob_passes {A} (o : blob_op A) : list string :=
  match o with
  | Check_for_prefix _ _ _ => ["num_results"]
  | _ => []
  end.

Definition blob_method {A} (o : blob_op A) : string :=
  match o with
  | Check_for_blob _ _ _ => "check_for_blob"
  | Check_for_prefix _ _ _ => "check_for_prefix"
  | Blob_to_path _ _ _ _ => "get_blob_to_path"
  | Blob_to_stream _ _ _ _ => "get_blob_to_stream"
  | Blob_load_file _ _ _ _ => "load_file"
  | Blob_load_string _ _ _ _ => "load_string"
  end.

Definition file_method {A} (o : file_op A) : string :=
  match o with
  | Check_for_file _ _ _ _ => "check_for_file"
  | File_to_path _ _ _ _ _ => "get_file_to_path"
  | File_to_stream _ _ _ _ _ => "get_file_to_stream"
  | File_load_file _ _ _ _ _ => "load_file"
  | File_load_string _ _ _ _ _ => "load_string"
  end.

Definition blob_options {A} (o : blob_op A) : kwargs :=
  match o with
  | Check_for_blob _ _ kw | Check_for_prefix _ _ kw
  | Blob_to_path _ _ _ kw | Blob_to_stream _ _ _ kw
  | Blob_load_file _ _ _ kw | Blob_load_string _ _ _ kw => kw
  end.

Definition file_options {A} (o : file_op A) : kwargs :=
  match o with
  | Check_for_file _ _ _ kw
  | File_to_path _ _ _ _ kw | File_to_stream _ _ _ _ kw
  | File_load_file _ _ _ _ kw | File_load_string _ _ _ _ kw => kw
  end.

Section dispatch.
Context {S : Type} `{!Env S}.

(** The body of the method called, on arguments already bound. *)
Definition blob_body (self : WasbHook.t) {A} (o : blob_op A) : M S A :=
  match o with
  | Check_for_blob c n kw => WasbHook.check_for_blob self c n kw
  | Check_for_prefix c p kw => WasbHook.check_for_prefix self c p kw
  | Blob_to_path c n path kw => WasbHook.get_blob_to_path self c n path kw
  | Blob_to_stream c n out kw => WasbHook.get_blob_to_stream self c n out kw
  | Blob_load_file path c n kw => WasbHook.load_file self path c n kw
  | Blob_load_string data c n kw => WasbHook.load_string self data c n kw
  end.

Definition file_body (self : FileShareHook.t) {A} (o : file_op A) : M S A :=
  match o with
  | Check_for_file s d f kw => FileShareHook.check_for_file self s d f kw
  | File_to_path s d f path kw =>
      FileShareHook.get_file_to_path self s d f path kw
  | File_to_stream s d f out kw =>
      FileShareHook.get_file_to_stream self s d f out kw
  | File_load_file path s d f kw =>
      FileShareHook.load_file self path s d f kw
  | File_load_string data s d f kw =>
      FileShareHook.load_string self data s d f kw
  end.

(** The call: the options are bound first, then the body runs. An option
    named like a parameter of the method ends the call with a [TypeError]
    before the body, hence before any external call. *)
Definition run_blob (self : WasbHook.t) {A} (o : blob_op A) : M S A :=
  lift (bind_options (blob_method o) (blob_params o) (blob_options o));;
  blob_body self o.

Definition run_file (self : FileShareHook.t) {A} (o : file_op A) : M S A :=
  lift (bind_options (file_method o) (file_params o) (file_options o));;
  file_body self o.
End dispatch.

(** ** A store model of the environment

    An in-memory stand-in for the connection registry, the two Azure services
    and the local file system, as a test double would provide: blobs live in
    containers, files in directories of shares, and the calls answer from
    what is stored.  The hooks are not defined in terms of it; it is one
    [Env] among all, used for the round-trip properties. *)

Module Store.

Inductive service := BlobService | FileService.

#[global] Instance service_eq_dec : EqDecision service.
Proof. solve_decision. Defined.

Record t := mk {
  (** Modelled from the spec: the connection registry behind
      [BaseHook.get_connection], which is not in the source file; the
      spec's [lookup(id) -> {login, password, extra}]. *)
  connections : gmap string Connection;
  accounts : gmap string string;              (* account name ↦ key *)
  clients : list service;                     (* the clients built so far *)
  containers : gmap string (gmap string string);
                                              (* container ↦ blob ↦ text *)
  shares : gmap string (gmap string (gmap string string));
                                              (* share ↦ directory ↦ file ↦ text *)
  local_files : gmap string string;           (* path ↦ text *)
  streams : gmap stream string;               (* open streams, text written *)
}.

Definition with_clients (s : t) (x : list service) : t :=
  mk (connections s) (accounts s) x (containers s) (shares s)
     (local_files s) (streams s).
Definition with_containers (s : t) (x : gmap string (gmap string string)) : t :=
  mk (connections s) (accounts s) (clients s) x (shares s)
     (local_files s) (streams s).
Definition with_shares (s : t)
    (x : gmap string (gmap string (gmap string string))) : t :=
  mk (connections s) (accounts s) (clients s) (containers s) x
     (local_files s) (streams s).
Definition with_local_files (s : t) (x : gmap string string) : t :=
  mk (connections s) (accounts s) (clients s) (containers s) (shares s)
     x (streams s).
Definition with_streams (s : t) (x : gmap stream string) : t :=
  mk (connections s) (accounts s) (clients s) (containers s) (shares s)
     (local_files s) x.

Definition fail {X} (e : exn) (s : t) : outcome X * t := (Raised e, s).
Definition azure {X} (k : vendor_error) (s : t) : outcome X * t :=
  fail (AzureException k) s.

(** Modelled from the spec: [BaseHook.get_connection] fails with a lookup
    error for an identifier that is not registered. *)
Definition get_connection (conn_id : string) (s : t)
    : outcome Connection * t :=
  match connections s !! conn_id with
  | Some conn => (Returned conn, s)
  | None =>
      fail (AirflowException ("The conn_id `" +:+ conn_id +:+ "` isn't defined")) s
  end.

(** A service constructor: the credentials must name an account. *)
Definition new_client (kind : service) (kw : kwargs) (s : t)
    : outcome client * t :=
  match kw !! "account_name", kw !! "account_key" with
  | Some (VStr name), Some (VStr key) =>
      if decide (accounts s !! name = Some key)
      then (Returned (length (clients s)),
            with_clients s (clients s ++ [kind]))
      else azure AuthenticationFailure s
  | _, _ => azure MalformedOptions s
  end.

(** A method called on something that is not a client of the service. *)
Definition on_client {X} (kind : service) (c : client)
    (body : t → outcome X * t) (s : t) : outcome X * t :=
  match clients s !! c with
  | Some k => if decide (k = kind) then body s
              else fail (TypeError "wrong service") s
  | None => fail (TypeError "not a client") s
  end.

Definition read_blob (container_name blob_name : string) (s : t)
    : option string :=
  blobs ← containers s !! container_name;
  (blobs : gmap string string) !! blob_name.

Definition blob_exists (container_name blob_name : string) (s : t)
    : outcome bool * t :=
  (Returned (bool_decide (is_Some (read_blob container_name blob_name s))), s).

Definition has_prefix (prefix : string) (entry : string * string) : Prop :=
  String.prefix prefix entry.1 = true.

#[global] Instance has_prefix_dec prefix entry :
  Decision (has_prefix prefix entry).
Proof. unfold has_prefix. apply _. Defined.

Definition props (entry : string * string) : Blob :=
  mkBlob entry.1 (String.length entry.2).

(** The page size asked for with [num_results]. *)
Definition page_size (kw : kwargs) : option (option nat) :=
  match kw !! "num_results" with
  | None | Some VNone => Some None
  | Some (VInt n) => if decide (0 < n)%Z then Some (Some (Z.to_nat n)) else None
  | Some _ => None
  end.

Definition list_blobs (container_name prefix : string) (kw : kwargs)
    (s : t) : outcome (list Blob) * t :=
  match containers s !! container_name with
  | None => azure NotFound s
  | Some blobs =>
      let found := filter (has_prefix prefix) (map_to_list blobs) in
      match page_size kw with
      | None => azure MalformedOptions s
      | Some None => (Returned (props <$> found), s)
      | Some (Some n) => (Returned (props <$> take n found), s)
      end
  end.

Definition get_blob_to_path (container_name blob_name file_path : string)
    (s : t) : outcome Blob * t :=
  match read_blob container_name blob_name s with
  | None => azure NotFound s
  | Some text =>
      (Returned (mkBlob blob_name (String.length text)),
       with_local_files s (<[file_path := text]> (local_files s)))
  end.

Definition get_blob_to_stream (container_name blob_name : string)
    (out : stream) (s : t) : outcome Blob * t :=
  match read_blob container_name blob_name s with
  | None => azure NotFound s
  | Some text =>
      match streams s !! out with
      | None => fail (IOError "closed stream") s
      | Some written =>
          (Returned (mkBlob blob_name (String.length text)),
           with_streams s (<[out := written +:+ text]> (streams s)))
      end
  end.

Definition create_blob_from_text (container_name blob_name text : string)
    (s : t) : outcome pyval * t :=
  match containers s !! container_name with
  | None => azure NotFound s
  | Some blobs =>
      (Returned (VInt (Z.of_nat (String.length text))),
       with_containers s
         (<[container_name := <[blob_name := text]> blobs]> (containers s)))
  end.

Definition create_blob_from_path
    (container_name blob_name file_path : string) (s : t)
    : outcome pyval * t :=
  match local_files s !! file_path with
  | None => fail (IOError file_path) s
  | Some text => create_blob_from_text container_name blob_name text s
  end.

Definition read_file (share_name directory_name file_name : string)
    (s : t) : option string :=
  dirs ← shares s !! share_name;
  files ← (dirs : gmap string (gmap string string)) !! directory_name;
  (files : gmap string string) !! file_name.

(** [exists(share_name, directory_name=None, file_name=None)]: a file when
    [file_name] is given, else a directory when [directory_name] is, else
    the share. An omitted directory is the root, named by the empty
    string. *)
Definition file_exists (share_name : string)
    (directory_name file_name : option string) (s : t) : outcome bool * t :=
  (Returned
     match shares s !! share_name with
     | None => false
     | Some dirs =>
         match file_name, directory_name with
         | Some f, d =>
             bool_decide (is_Some (read_file share_name (default "" d) f s))
         | None, Some d => bool_decide (is_Some (dirs !! d))
         | None, None => true
         end
     end, s).

Definition get_file_to_path
    (share_name directory_name file_name file_path : string) (s : t)
    : outcome File * t :=
  match read_file share_name directory_name file_name s with
  | None => azure NotFound s
  | Some text =>
      (Returned (mkFile file_name (String.length text)),
       with_local_files s (<[file_path := text]> (local_files s)))
  end.

Definition get_file_to_stream
    (share_name directory_name file_name : string) (out : stream) (s : t)
    : outcome File * t :=
  match read_file share_name directory_name file_name s with
  | None => azure NotFound s
  | Some text =>
      match streams s !! out with
      | None => fail (IOError "closed stream") s
      | Some written =>
          (Returned (mkFile file_name (String.length text)),
           with_streams s (<[out := written +:+ text]> (streams s)))
      end
  end.

Definition create_file_from_text
    (share_name directory_name file_name text : string) (s : t)
    : outcome pyval * t :=
  match shares s !! share_name with
  | None => azure NotFound s
  | Some dirs =>
      match dirs !! directory_name with
      | None => azure NotFound s
      | Some files =>
          (Returned (VInt (Z.of_nat (String.length text))),
           with_shares s
             (<[share_name :=
                  <[directory_name := <[file_name := text]> files]> dirs]>
                (shares s)))
      end
  end.

Definition create_file_from_path
    (share_name directory_name file_name file_path : string) (s : t)
    : outcome pyval * t :=
  match local_files s !! file_path with
  | None => fail (IOError file_path) s
  | Some text =>
      create_file_from_text share_name directory_name file_name text s
  end.

Definition handle {X} (e : ext X) : t → outcome X * t :=
  match e with
  | Get_connection conn_id => get_connection conn_id
  | BlockBlobService_new kw => new_client BlobService kw
  | FileService_new kw => new_client FileService kw
  | Blob_exists c cn bn _ => on_client BlobService c (blob_exists cn bn)
  | List_blobs c cn p kw => on_client BlobService c (list_blobs cn p kw)
  | Get_blob_to_path c cn bn path _ =>
      on_client BlobService c (get_blob_to_path cn bn path)
  | Get_blob_to_stream c cn bn out _ =>
      on_client BlobService c (get_blob_to_stream cn bn out)
  | Create_blob_from_path c cn bn path _ =>
      on_client BlobService c (create_blob_from_path cn bn path)
  | Create_blob_from_text c cn bn text _ =>
      on_client BlobService c (create_blob_from_text cn bn text)
  | File_exists c sh d f _ => on_client FileService c (file_exists sh d f)
  | Get_file_to_path c sh d f path _ =>
      on_client FileService c (get_file_to_path sh d f path)
  | Get_file_to_stream c sh d f out _ =>
      on_client FileService c (get_file_to_stream sh d f out)
  | Create_file_from_path c sh d f path _ =>
      on_client FileService c (create_file_from_path sh d f path)
  | Create_file_from_text c sh d f text _ =>
      on_client FileService c (create_file_from_text sh d f text)
  end.

#[global] Instance env : Env t := @handle.

(** A small populated store: one account with one connection, a container
    with two blobs, a share with one file in its root, a local file and an
    open stream. *)
Definition example : t :=
  mk {[ "wasb_default" :=
          mkConnection "acct" "key" {[ "protocol" := VStr "https" ]};
        "broken" :=
          mkConnection "acct" "key" {[ "account_name" := VStr "other" ]} ]}
     {[ "acct" := "key" ]}
     []
     {[ "logs" := {[ "2017/a.txt" := "alpha"; "2017/b.txt" := "beta" ]} ]}
     {[ "share" := {[ "" := {[ "notes.txt" := "gamma" ]} ]} ]}
     {[ "/tmp/in.txt" := "local text" ]}
     {[ 3 := "" ]}.

End Store.

(** The world a run starts from: a state of the environment, no call made. *)
Definition start {S} (s : S) : world S := mkWorld s [].

(** ** Reading a run *)

(** Which client an event is a method call on, if any: the lookup of a
    connection and the construction of a client are calls on no client. *)
Definition receiver (ev : event) : option client :=
  match ev with
  | Ev e =>
      match e with
      | Get_connection _ | BlockBlobService_new _ | FileService_new _ => None
      | Blob_exists c _ _ _ | List_blobs c _ _ _
      | Get_blob_to_path c _ _ _ _ | Get_blob_to_stream c _ _ _ _
      | Create_blob_from_path c _ _ _ _ | Create_blob_from_text c _ _ _ _
      | File_exists c _ _ _ _
      | Get_file_to_path c _ _ _ _ _ | Get_file_to_stream c _ _ _ _ _
      | Create_file_from_path c _ _ _ _ _ | Create_file_from_text c _ _ _ _ _
          => Some c
      end
  end.

(** A run [m w] is one forwarded request to client [c]: the trace grows by
    exactly one method call on [c], the environment is left as that call left
    it, and an exception of the call is the exception of the run. *)
Definition forwards_once {S} `{!Env S} {A} (c : client) (m : M S A)
    (w : world S) : Prop :=
  ∃ X (e : ext X),
    receiver (Ev e) = Some c ∧
    trace (m w).2 = trace w ++ [Ev e] ∧
    ext_state (m w).2 = (answer e (ext_state w)).2 ∧
    ∀ err, (answer e (ext_state w)).1 = Raised err → (m w).1 = Raised err.

(** A run that neither resolves a connection nor builds a client: whatever it
    appends to the trace is a method call on [c]. *)
Definition stays_on {S} {A} (c : client) (m : M S A) (w : world S) : Prop :=
  ∃ l, trace (m w).2 = trace w ++ l ∧ Forall (λ ev, receiver ev = Some c) l.

(** The keyword arguments of a service constructor, built from a record. *)
Definition service_keywords (conn : Connection) : kwargs :=
  <["account_name" := VStr (login conn)]>
    (<["account_key" := VStr (password conn)]> (extra_dejson conn)).

(** The methods of [WasbHook] a caller may invoke on an instance: the
    storage operations and the public [get_conn]. *)
Inductive wasb_method : Type → Type :=
| Wasb_get_conn : wasb_method client
| Wasb_op {A} (o : blob_op A) : wasb_method A.

Definition run_wasb_method {S} `{!Env S} (self : WasbHook.t) {A}
    (m : wasb_method A) : M S A :=
  match m with
  | Wasb_get_conn => WasbHook.get_conn (WasbHook.conn_id self)
  | Wasb_op o => run_blob self o
  end.

(** An operation whose options repeat a keyword that is bound already: the
    name of a parameter of the method, [self] included, or a keyword the
    body passes itself in its call ([num_results] in [check_for_prefix]). *)
Definition repeats_keyword {A} (o : blob_op A) : bool :=
  bool_decide (is_Some (first_given (blob_params o ++ blob_passes o)
                          (blob_options o))).

Definition file_repeats_keyword {A} (o : file_op A) : bool :=
  bool_decide (is_Some (first_given (file_params o) (file_options o))).

Section shared.
Context {S : Type} `{!Env S}.

(** The body shared by the two [get_conn] methods. *)
Definition build_client (fname : string) (new : kwargs → ext client)
    (id : string) : M S client :=
  conn ← call (Get_connection id);
  kw ← keywords fname [("account_name", VStr (login conn));
                       ("account_key", VStr (password conn))]
         (extra_dejson conn);
  call (new kw).

End shared.

(** What is left of the outcome of a call once its value is discarded. *)
Definition discard {A} (r : outcome A) : outcome pyval :=
  match r with
  | Returned _ => Returned VNone
  | Raised e => Raised e
  end.

(** ** The example world *)

(** The hooks of the example: built without an argument on [Store.example]. *)
Definition example_hook : WasbHook.t := WasbHook.mk "wasb_default" 0.
Definition example_world : world Store.t :=
  (WasbHook.new NoArgument (start Store.example)).2.
Definition example_file_hook : FileShareHook.t :=
  FileShareHook.mk "wasb_default" 0.
Definition example_file_world : world Store.t :=
  (FileShareHook.new NoArgument (start Store.example)).2.
Definition example_blobs : gmap string string :=
  {[ "2017/a.txt" := "alpha"; "2017/b.txt" := "beta" ]}.

(** A store whose registered connection carries a wrong account key, and
    one whose container is empty. *)
Definition example_denied : Store.t :=
  Store.mk {[ "wasb_default" := mkConnection "acct" "wrong" ∅ ]}
           {[ "acct" := "key" ]} [] ∅ ∅ ∅ ∅.
Definition example_empty_container : world Store.t :=
  start (Store.mk ∅ ∅ [Store.BlobService] {[ "logs" := ∅ ]} ∅ ∅ ∅).

(** What [__init__] makes of the outcome of the service constructor. *)
Definition bound {T} (mk : string → client → T) (id : string)
    (r : outcome client) : outcome T :=
  match r with
  | Returned c => Returned (mk id c)
  | Raised e => Raised e
  end.

(** A run is transparent for the exceptions of its one call: it raises
    exactly when the call raises, and then the same exception. *)
Definition raises_with_call {S} `{!Env S} {A} (m : M S A) (w : world S)
    : Prop :=
  ∃ X (e : ext X),
    trace (m w).2 = trace w ++ [Ev e] ∧
    ∀ err, (m w).1 = Raised err ↔ (answer e (ext_state w)).1 = Raised err.

(** * Properties *)

Section laws.
Context {S : Type} `{!Env S}.

Lemma call_run {X} (e : ext X) (w : world S) :
  call e w = ((answer e (ext_state w)).1,
              mkWorld (answer e (ext_state w)).2 (trace w ++ [Ev e])).
Proof. unfold call. by destruct (answer e (ext_state w)). Qed.

Lemma bind_run {A B} (m : M S A) (k : A → M S B) (w : world S) :
  (m ≫= k) w = match m w with
               | (Returned a, w') => k a w'
               | (Raised e, w') => (Raised e, w')
               end.
Proof. reflexivity. Qed.

Lemma call_forwards_once {X} (e : ext X) c (w : world S) :
  receiver (Ev e) = Some c → forwards_once c (call e) w.
Proof.
  intros Hc. exists X, e. rewrite call_run. simpl. done.
Qed.

(** A call followed by code that makes no call and does not raise. *)
Lemma call_then_forwards_once {X A} (e : ext X) (f : X → A) c (w : world S) :
  receiver (Ev e) = Some c →
  forwards_once c (call e ≫= λ x, mret (f x)) w.
Proof.
  intros Hc. exists X, e. rewrite bind_run, call_run.
  destruct (answer e (ext_state w)) as [[x|err] s']; simpl; split_and!; try done.
  by intros ? [= ->].
Qed.

Lemma wasb_get_conn_unfold id :
  WasbHook.get_conn id = build_client "BlockBlobService" BlockBlobService_new id.
Proof. reflexivity. Qed.

Lemma file_get_conn_unfold id :
  FileShareHook.get_conn id = build_client "FileService" FileService_new id.
Proof. reflexivity. Qed.

Lemma merge_two_keywords fname k1 v1 k2 v2 (d kw : kwargs) :
  merge_keywords fname [(k1, v1); (k2, v2)] d = Returned kw →
  d !! k1 = None ∧ d !! k2 = None ∧ kw = <[k1 := v1]> (<[k2 := v2]> d).
Proof.
  simpl. destruct (d !! k1); [done|]. destruct (d !! k2); [done|].
  by intros [= <-].
Qed.

Lemma merge_one_keyword fname k v (d : kwargs) :
  d !! k = None → merge_keywords fname [(k, v)] d = Returned (<[k := v]> d).
Proof. intros H. simpl. by rewrite H. Qed.

Lemma merge_repeated_keyword fname k v rest (d : kwargs) :
  is_Some (d !! k) →
  ∃ msg, merge_keywords fname ((k, v) :: rest) d = Raised (TypeError msg).
Proof. intros [x H]. simpl. rewrite H. by eexists. Qed.

(** A successful [get_conn]: one lookup, one construction from the record. *)
Lemma build_client_returned fname new id (w w' : world S) c :
  build_client fname new id w = (Returned c, w') →
  ∃ conn s1,
    answer (Get_connection id) (ext_state w) = (Returned conn, s1) ∧
    extra_dejson conn !! "account_name" = None ∧
    extra_dejson conn !! "account_key" = None ∧
    answer (new (service_keywords conn)) s1 = (Returned c, ext_state w') ∧
    trace w' = trace w ++ [Ev (Get_connection id);
                           Ev (new (service_keywords conn))].
Proof.
  unfold build_client. rewrite bind_run, call_run.
  destruct (answer (Get_connection id) (ext_state w)) as [[conn|err] s1] eqn:Hl;
    simpl; [|done].
  rewrite bind_run. unfold keywords, lift.
  destruct (merge_keywords _ _ _) as [kw|err] eqn:Hkw; simpl; [|done].
  apply merge_two_keywords in Hkw as (Hn & Hk & ->).
  rewrite call_run.
  change (<["account_name" := _]> _) with (service_keywords conn).
  simpl.
  destruct (answer (new (service_keywords conn)) s1) as [r s2] eqn:Hnew.
  simpl. intros [= -> <-]. exists conn, s1. simpl.
  split_and!; try done. by rewrite <- (assoc_L (++)).
Qed.

(** And [get_conn] does return when the lookup returns a record whose
    options leave the two credentials alone and the constructor returns. *)
Lemma build_client_returns fname new id (w : world S) conn s1 c s2 :
  answer (Get_connection id) (ext_state w) = (Returned conn, s1) →
  extra_dejson conn !! "account_name" = None →
  extra_dejson conn !! "account_key" = None →
  answer (new (service_keywords conn)) s1 = (Returned c, s2) →
  build_client fname new id w
  = (Returned c,
     mkWorld s2 (trace w ++ [Ev (Get_connection id);
                             Ev (new (service_keywords conn))])).
Proof.
  intros Hl Hn Hk Hnew. unfold build_client.
  rewrite bind_run, call_run, Hl. simpl.
  rewrite bind_run. unfold keywords, lift. simpl. rewrite Hn, Hk.
  rewrite call_run. simpl.
  change (<["account_name" := _]> _) with (service_keywords conn).
  rewrite Hnew. simpl. by rewrite <- (assoc_L (++)).
Qed.

(** Whatever happens, the first thing [get_conn] does is the lookup. *)
Lemma build_client_trace fname new id (w : world S) :
  ∃ l, trace (build_client fname new id w).2
       = trace w ++ Ev (Get_connection id) :: l.
Proof.
  unfold build_client. rewrite bind_run, call_run.
  destruct (answer (Get_connection id) (ext_state w)) as [[conn|err] s1];
    simpl; [|by exists []].
  rewrite bind_run. unfold keywords, lift.
  destruct (merge_keywords _ _ _) as [kw|err]; simpl; [|by exists []].
  rewrite call_run. simpl. exists [Ev (new kw)].
  by rewrite <- (assoc_L (++)).
Qed.

(** [check_for_prefix] called with a [num_results] option of its own. *)
Lemma check_for_prefix_repeated (self : WasbHook.t) c p (kw : kwargs)
    (w : world S) :
  is_Some (kw !! "num_results") →
  ∃ msg, WasbHook.check_for_prefix self c p kw w = (Raised (TypeError msg), w).
Proof.
  intros H. unfold WasbHook.check_for_prefix, keywords, lift.
  rewrite bind_run.
  destruct (merge_repeated_keyword "list_blobs" _ (VInt 1) [] _ H) as [msg ->].
  by exists msg.
Qed.

Lemma check_for_prefix_run (self : WasbHook.t) c p (kw : kwargs)
    (w : world S) :
  kw !! "num_results" = None →
  WasbHook.check_for_prefix self c p kw w
  = (call (List_blobs (WasbHook.connection self) c p
             (<["num_results" := VInt 1]> kw))
       ≫= λ matches, mret (nonempty matches)) w.
Proof.
  intros H. unfold WasbHook.check_for_prefix, keywords, lift.
  rewrite (bind_run (λ w, (merge_keywords _ _ _, w))).
  by rewrite (merge_one_keyword _ _ _ _ H).
Qed.

Lemma first_given_Some params (kw : kwargs) p :
  first_given params kw = Some p → p ∈ params ∧ is_Some (kw !! p).
Proof.
  induction params as [|q rest IH]; simpl; [done|].
  destruct (kw !! q) as [v|] eqn:Hq.
  - intros [= <-]. split; [left|by rewrite Hq].
  - intros [Hin Hp]%IH. split; [by right|done].
Qed.

Lemma first_given_None params (kw : kwargs) :
  first_given params kw = None ↔ ∀ p, p ∈ params → kw !! p = None.
Proof.
  induction params as [|q rest IH]; simpl.
  - split; [|done]. by intros _ p ?%elem_of_nil.
  - destruct (kw !! q) as [v|] eqn:Hq.
    + split; [done|]. intros H. specialize (H q (list_elem_of_here _ _)).
      congruence.
    + rewrite IH. split.
      * intros H p [->|Hin]%elem_of_cons; [done|by apply H].
      * intros H p Hin. apply H. by right.
Qed.

Lemma first_given_app_None l1 l2 (kw : kwargs) :
  first_given (l1 ++ l2) kw = None ↔
  first_given l1 kw = None ∧ first_given l2 kw = None.
Proof.
  rewrite !first_given_None. split.
  - intros H. split; intros p Hin; apply H, elem_of_app; [by left|by right].
  - intros [H1 H2] p [Hin|Hin]%elem_of_app; [by apply H1|by apply H2].
Qed.

Lemma bind_options_free fname params (kw : kwargs) :
  first_given params kw = None → bind_options fname params kw = Returned ().
Proof. intros H. unfold bind_options. by rewrite H. Qed.

Lemma bind_options_repeated fname params (kw : kwargs) :
  is_Some (first_given params kw) →
  ∃ msg, bind_options fname params kw = Raised (TypeError msg).
Proof. intros [p H]. unfold bind_options. rewrite H. by eexists. Qed.

(** What [repeats_keyword] decides. *)
Lemma repeats_keyword_true {A} (o : blob_op A) :
  repeats_keyword o = true ↔
  ∃ p, p ∈ blob_params o ++ blob_passes o ∧ is_Some (blob_options o !! p).
Proof.
  unfold repeats_keyword. rewrite bool_decide_eq_true. split.
  - intros [p H]. exists p. by apply first_given_Some.
  - intros (p & Hin & Hp). apply not_eq_None_Some. intros Hn.
    rewrite first_given_None in Hn. rewrite (Hn p Hin) in Hp.
    by apply is_Some_None in Hp.
Qed.

Lemma file_repeats_keyword_true {A} (o : file_op A) :
  file_repeats_keyword o = true ↔
  ∃ p, p ∈ file_params o ∧ is_Some (file_options o !! p).
Proof.
  unfold file_repeats_keyword. rewrite bool_decide_eq_true. split.
  - intros [p H]. exists p. by apply first_given_Some.
  - intros (p & Hin & Hp). apply not_eq_None_Some. intros Hn.
    rewrite first_given_None in Hn. rewrite (Hn p Hin) in Hp.
    by apply is_Some_None in Hp.
Qed.

Lemma repeats_keyword_false {A} (o : blob_op A) :
  repeats_keyword o = false →
  first_given (blob_params o) (blob_options o) = None ∧
  first_given (blob_passes o) (blob_options o) = None.
Proof.
  unfold repeats_keyword. rewrite bool_decide_eq_false.
  rewrite <- eq_None_not_Some. apply first_given_app_None.
Qed.

Lemma file_repeats_keyword_false {A} (o : file_op A) :
  file_repeats_keyword o = false →
  first_given (file_params o) (file_options o) = None.
Proof.
  unfold file_repeats_keyword. rewrite bool_decide_eq_false.
  by rewrite <- eq_None_not_Some.
Qed.

(** A call whose options are free of the parameter names is its body. *)
Lemma run_blob_bound (b : WasbHook.t) {A} (o : blob_op A) (w : world S) :
  first_given (blob_params o) (blob_options o) = None →
  run_blob b o w = blob_body b o w.
Proof.
  intros H. unfold run_blob, lift. rewrite bind_run.
  by rewrite (bind_options_free _ _ _ H).
Qed.

Lemma run_file_bound (fs : FileShareHook.t) {A} (o : file_op A)
    (w : world S) :
  first_given (file_params o) (file_options o) = None →
  run_file fs o w = file_body fs o w.
Proof.
  intros H. unfold run_file, lift. rewrite bind_run.
  by rewrite (bind_options_free _ _ _ H).
Qed.

(** A call whose options repeat a keyword raises before any external call. *)
Lemma run_blob_rejected (b : WasbHook.t) {A} (o : blob_op A) (w : world S) :
  repeats_keyword o = true →
  ∃ msg, run_blob b o w = (Raised (TypeError msg), w).
Proof.
  intros Hrep.
  destruct (first_given (blob_params o) (blob_options o)) as [p|] eqn:Hp.
  - destruct (bind_options_repeated (blob_method o) (blob_params o)
                (blob_options o)) as [msg Hm]; [by rewrite Hp|].
    exists msg. unfold run_blob, lift. by rewrite bind_run, Hm.
  - rewrite (run_blob_bound _ _ _ Hp).
    apply bool_decide_eq_true in Hrep.
    assert (Hpass : is_Some (first_given (blob_passes o) (blob_options o))).
    { destruct (first_given (blob_passes o) (blob_options o)) eqn:Hq; [done|].
      rewrite (proj2 (first_given_app_None _ _ _) (conj Hp Hq)) in Hrep.
      by apply is_Some_None in Hrep. }
    destruct o as [c n kw|c p kw|c n path kw|c n out kw|path c n kw|data c n kw];
      try (by apply is_Some_None in Hpass).
    apply check_for_prefix_repeated. simpl in Hpass.
    by destruct (kw !! "num_results").
Qed.

Lemma run_file_rejected (fs : FileShareHook.t) {A} (o : file_op A)
    (w : world S) :
  file_repeats_keyword o = true →
  ∃ msg, run_file fs o w = (Raised (TypeError msg), w).
Proof.
  intros Hrep%bool_decide_eq_true.
  destruct (bind_options_repeated (file_method o) (file_params o)
              (file_options o) Hrep) as [msg Hm].
  exists msg. unfold run_file, lift. by rewrite bind_run, Hm.
Qed.

Lemma forwards_once_stays_on {A} c (m : M S A) (w : world S) :
  forwards_once c m w → stays_on c m w.
Proof.
  intros (X & e & Hc & Htr & _). exists [Ev e]. split; [done|].
  by constructor.
Qed.

End laws.

(** ** Forwarding, for every environment *)

Section forwarding.
Context {S : Type} `{!Env S}.

(** C1. [WasbHook.load_file(file_path, container_name, blob_name, **kwargs)]
    makes exactly one external call: [create_blob_from_path] on the hook's
    client, with the positional arguments in the order
    (container_name, blob_name, file_path) and the options as given. The
    environment is left as that call left it. *)
Theorem load_file_calls_create_blob_from_path
    (self : WasbHook.t) (p c n : string) (k : kwargs) (w : world S) :
  let request := Create_blob_from_path (WasbHook.connection self) c n p k in
  trace (WasbHook.load_file self p c n k w).2 = trace w ++ [Ev request] ∧
  ext_state (WasbHook.load_file self p c n k w).2
    = (answer request (ext_state w)).2.
Proof.
  intros request. unfold WasbHook.load_file.
  rewrite bind_run, call_run. fold request.
  by destruct (answer request (ext_state w)) as [[v|err] s'].
Qed.

(** C7. [FileShareHook.check_for_file(share_name, directory_name, file_name)]
    makes exactly one external call, [exists] on the hook's client with
    exactly (share_name, directory_name, file_name), an omitted name being
    [None]; what the call returns or raises is what the method returns or
    raises. Which existence is checked is thus the environment's answer. *)
Theorem check_for_file_is_exists
    (self : FileShareHook.t) (s : string) (d f : option string)
    (k : kwargs) (w : world S) :
  let request := File_exists (FileShareHook.connection self) s d f k in
  (FileShareHook.check_for_file self s d f k w).1
    = (answer request (ext_state w)).1 ∧
  trace (FileShareHook.check_for_file self s d f k w).2
    = trace w ++ [Ev request] ∧
  ext_state (FileShareHook.check_for_file self s d f k w).2
    = (answer request (ext_state w)).2.
Proof.
  intros request. unfold FileShareHook.check_for_file.
  by rewrite call_run.
Qed.

(** C9. The uploads of both hooks return [None] whatever the SDK call
    returned; the downloads return what the SDK call returned. *)
Theorem uploads_return_none_downloads_return_metadata
    (b : WasbHook.t) (fs : FileShareHook.t) (w : world S) :
  let bc := WasbHook.connection b in
  let fc := FileShareHook.connection fs in
  (∀ p c n k, (WasbHook.load_file b p c n k w).1
     = discard (answer (Create_blob_from_path bc c n p k) (ext_state w)).1) ∧
  (∀ t c n k, (WasbHook.load_string b t c n k w).1
     = discard (answer (Create_blob_from_text bc c n t k) (ext_state w)).1) ∧
  (∀ p sh d f k, (FileShareHook.load_file fs p sh d f k w).1
     = discard (answer (Create_file_from_path fc sh d f p k) (ext_state w)).1) ∧
  (∀ t sh d f k, (FileShareHook.load_string fs t sh d f k w).1
     = discard (answer (Create_file_from_text fc sh d f t k) (ext_state w)).1) ∧
  (∀ c n p k, (WasbHook.get_blob_to_path b c n p k w).1
     = (answer (Get_blob_to_path bc c n p k) (ext_state w)).1) ∧
  (∀ c n o k, (WasbHook.get_blob_to_stream b c n o k w).1
     = (answer (Get_blob_to_stream bc c n o k) (ext_state w)).1) ∧
  (∀ sh d f p k, (FileShareHook.get_file_to_path fs sh d f p k w).1
     = (answer (Get_file_to_path fc sh d f p k) (ext_state w)).1) ∧
  (∀ sh d f o k, (FileShareHook.get_file_to_stream fs sh d f o k w).1
     = (answer (Get_file_to_stream fc sh d f o k) (ext_state w)).1).
Proof.
  intros bc fc.
  assert (Hup : ∀ X (e : ext X),
    ((call e ≫= (λ _, mret VNone : M S pyval)) w).1
      = discard (answer e (ext_state w)).1).
  { intros X e. rewrite bind_run, call_run.
    by destruct (answer e (ext_state w)) as [[v|err] s']. }
  split_and!; intros.
  1-4: apply Hup.
  all: unfold WasbHook.get_blob_to_path, WasbHook.get_blob_to_stream,
         FileShareHook.get_file_to_path, FileShareHook.get_file_to_stream;
       by rewrite call_run.
Qed.

(** The first external call of either constructor is the lookup of the
    connection; when it raises, nothing else happens. *)
Lemma wasb_get_conn_lookup_raised (id : string) (w : world S) err s' :
  answer (Get_connection id) (ext_state w) = (Raised err, s') →
  WasbHook.get_conn id w
    = (Raised err, mkWorld s' (trace w ++ [Ev (Get_connection id)])).
Proof.
  intros H. unfold WasbHook.get_conn. by rewrite bind_run, call_run, H.
Qed.

Lemma file_get_conn_lookup_raised (id : string) (w : world S) err s' :
  answer (Get_connection id) (ext_state w) = (Raised err, s') →
  FileShareHook.get_conn id w
    = (Raised err, mkWorld s' (trace w ++ [Ev (Get_connection id)])).
Proof.
  intros H. unfold FileShareHook.get_conn. by rewrite bind_run, call_run, H.
Qed.

(** C5. When the lookup of the connection identifier fails, construction of
    either hook raises the error of the lookup and returns no instance; the
    lookup is the only external call made, so no service constructor has
    been invoked, and the environment is as the lookup left it. *)
Theorem init_fails_before_client_is_built
    (id : string) (w : world S) (err : exn) (s' : S) :
  answer (Get_connection id) (ext_state w) = (Raised err, s') →
  WasbHook.init id w
    = (Raised err, mkWorld s' (trace w ++ [Ev (Get_connection id)])) ∧
  FileShareHook.init id w
    = (Raised err, mkWorld s' (trace w ++ [Ev (Get_connection id)])).
Proof.
  intros H. unfold WasbHook.init, FileShareHook.init.
  rewrite !bind_run.
  by rewrite (wasb_get_conn_lookup_raised _ _ _ _ H),
             (file_get_conn_lookup_raised _ _ _ _ H).
Qed.

End forwarding.

(** ** Construction *)

Section construction.
Context {S : Type} `{!Env S}.

(** C10. Instantiated without an argument, [FileShareHook] resolves the
    connection identifier ['wasb_default'], the default of a parameter named
    [wasb_conn_id], exactly as [WasbHook] does: from any world, the first
    external call of both is the lookup of ['wasb_default'], answered from
    the same state of the registry, and the keyword [wasb_conn_id] selects
    the identifier for both. *)
Theorem file_share_hook_shares_default_connection (w : world S) :
  FileShareHook.default_wasb_conn_id = "wasb_default" ∧
  FileShareHook.default_wasb_conn_id = WasbHook.default_wasb_conn_id ∧
  FileShareHook.init_param_name = "wasb_conn_id" ∧
  FileShareHook.init_param_name = WasbHook.init_param_name ∧
  FileShareHook.new NoArgument w = FileShareHook.init "wasb_default" w ∧
  WasbHook.new NoArgument w = WasbHook.init "wasb_default" w ∧
  (∃ l, trace (FileShareHook.new NoArgument w).2
        = trace w ++ Ev (Get_connection "wasb_default") :: l) ∧
  (∃ l, trace (WasbHook.new NoArgument w).2
        = trace w ++ Ev (Get_connection "wasb_default") :: l) ∧
  (∀ id, FileShareHook.new (Keyword "wasb_conn_id" id) w
         = FileShareHook.init id w) ∧
  (∀ id, WasbHook.new (Keyword "wasb_conn_id" id) w = WasbHook.init id w).
Proof.
  split_and!; try reflexivity.
  - change (FileShareHook.new NoArgument w)
      with (FileShareHook.init "wasb_default" w).
    unfold FileShareHook.init. rewrite bind_run, file_get_conn_unfold.
    destruct (build_client_trace "FileService" FileService_new
                "wasb_default" w) as [l Hl].
    exists l. by destruct (build_client _ _ _ w) as [[c|err] w'].
  - change (WasbHook.new NoArgument w)
      with (WasbHook.init "wasb_default" w).
    unfold WasbHook.init. rewrite bind_run, wasb_get_conn_unfold.
    destruct (build_client_trace "BlockBlobService" BlockBlobService_new
                "wasb_default" w) as [l Hl].
    exists l. by destruct (build_client _ _ _ w) as [[c|err] w'].
Qed.

Lemma blob_op_forwards_once (b : WasbHook.t) {A} (o : blob_op A)
    (w : world S) :
  repeats_keyword o = false →
  forwards_once (WasbHook.connection b) (run_blob b o) w.
Proof.
  intros [Hparams Hpasses]%repeats_keyword_false.
  unfold forwards_once. rewrite (run_blob_bound _ _ _ Hparams).
  destruct o as [c n kw|c p kw|c n path kw|c n out kw|path c n kw|data c n kw];
    simpl in *.
  - by apply call_forwards_once.
  - assert (Hn : kw !! "num_results" = None)
      by (by destruct (kw !! "num_results")).
    destruct (call_then_forwards_once
      (List_blobs (WasbHook.connection b) c p
         (<["num_results" := VInt 1]> kw)) nonempty
      (WasbHook.connection b) w eq_refl) as (X & e & H).
    exists X, e. by rewrite (check_for_prefix_run _ _ _ _ _ Hn).
  - by apply call_forwards_once.
  - by apply call_forwards_once.
  - by apply (call_then_forwards_once _ (λ _, VNone)).
  - by apply (call_then_forwards_once _ (λ _, VNone)).
Qed.

Lemma file_op_forwards_once (fs : FileShareHook.t) {A} (o : file_op A)
    (w : world S) :
  file_repeats_keyword o = false →
  forwards_once (FileShareHook.connection fs) (run_file fs o) w.
Proof.
  intros Hparams%file_repeats_keyword_false.
  unfold forwards_once. rewrite (run_file_bound _ _ _ Hparams).
  destruct o; simpl.
  1-3: by apply call_forwards_once.
  all: by apply (call_then_forwards_once _ (λ _, VNone)).
Qed.

Lemma blob_op_stays_on (b : WasbHook.t) {A} (o : blob_op A) (w : world S) :
  stays_on (WasbHook.connection b) (run_blob b o) w.
Proof.
  destruct (repeats_keyword o) eqn:Hrep.
  - destruct (run_blob_rejected b o w Hrep) as [msg Hm].
    unfold stays_on. rewrite Hm.
    exists []. by rewrite (right_id_L [] (++)).
  - by apply forwards_once_stays_on, blob_op_forwards_once.
Qed.

Lemma file_op_stays_on (fs : FileShareHook.t) {A} (o : file_op A)
    (w : world S) :
  stays_on (FileShareHook.connection fs) (run_file fs o) w.
Proof.
  destruct (file_repeats_keyword o) eqn:Hrep.
  - destruct (run_file_rejected fs o w Hrep) as [msg Hm].
    unfold stays_on. rewrite Hm.
    exists []. by rewrite (right_id_L [] (++)).
  - by apply forwards_once_stays_on, file_op_forwards_once.
Qed.

(** C4, as the code has it. When construction of a hook succeeds, it has
    looked the connection up once and has built one client, from the login,
    the password and the options of the record found; the instance holds the
    identifier and that client. Every storage operation on the instance then
    stays on that client: what it adds to the trace is a method call on it,
    never a lookup or a construction. No method assigns an attribute after
    [__init__], so an operation takes the instance and returns its result
    only. (The public [get_conn] is not a storage operation: called again it
    looks the connection up again.) *)
Theorem construction_binds_one_client :
  (∀ id (w w' : world S) hook,
     WasbHook.init id w = (Returned hook, w') →
     (∃ conn s1,
        answer (Get_connection id) (ext_state w) = (Returned conn, s1) ∧
        answer (BlockBlobService_new (service_keywords conn)) s1
          = (Returned (WasbHook.connection hook), ext_state w') ∧
        trace w' = trace w ++
          [Ev (Get_connection id);
           Ev (BlockBlobService_new (service_keywords conn))]) ∧
     WasbHook.conn_id hook = id ∧
     ∀ A (o : blob_op A) w1,
       stays_on (WasbHook.connection hook) (run_blob hook o) w1) ∧
  (∀ id (w w' : world S) hook,
     FileShareHook.init id w = (Returned hook, w') →
     (∃ conn s1,
        answer (Get_connection id) (ext_state w) = (Returned conn, s1) ∧
        answer (FileService_new (service_keywords conn)) s1
          = (Returned (FileShareHook.connection hook), ext_state w') ∧
        trace w' = trace w ++
          [Ev (Get_connection id);
           Ev (FileService_new (service_keywords conn))]) ∧
     FileShareHook.conn_id hook = id ∧
     ∀ A (o : file_op A) w1,
       stays_on (FileShareHook.connection hook) (run_file hook o) w1).
Proof.
  split; intros id w w' hook.
  - unfold WasbHook.init. rewrite bind_run, wasb_get_conn_unfold.
    destruct (build_client _ _ _ w) as [[c|err] w1] eqn:Hb; [|done].
    intros [= <- <-].
    apply build_client_returned in Hb as (conn & s1 & Hl & _ & _ & Hn & Ht).
    split_and!; [by exists conn, s1|done|].
    intros A o w2. apply blob_op_stays_on.
  - unfold FileShareHook.init. rewrite bind_run, file_get_conn_unfold.
    destruct (build_client _ _ _ w) as [[c|err] w1] eqn:Hb; [|done].
    intros [= <- <-].
    apply build_client_returned in Hb as (conn & s1 & Hl & _ & _ & Hn & Ht).
    split_and!; [by exists conn, s1|done|].
    intros A o w2. apply file_op_stays_on.
Qed.

(** C6, as the code has it. Every operation of either hook is one request
    forwarded to the hook's client, the trace grows by that one call, and an
    exception of the call is the exception of the operation, unchanged;
    unless the options of the call repeat a keyword that is bound already.
    That is an option named like a parameter of the method ([self],
    [container_name], [blob_name], [share_name], ...), or, for
    [check_for_prefix], the [num_results] the method passes itself. Python
    then raises a [TypeError] where the keyword is given twice, and no
    request is made. *)
Theorem operations_forward_once
    (b : WasbHook.t) (fs : FileShareHook.t) (w : world S) :
  (∀ A (o : blob_op A),
     repeats_keyword o = false →
     forwards_once (WasbHook.connection b) (run_blob b o) w) ∧
  (∀ A (o : file_op A),
     file_repeats_keyword o = false →
     forwards_once (FileShareHook.connection fs) (run_file fs o) w) ∧
  (∀ A (o : blob_op A),
     repeats_keyword o = true →
     ∃ msg, run_blob b o w = (Raised (TypeError msg), w)) ∧
  (∀ A (o : file_op A),
     file_repeats_keyword o = true →
     ∃ msg, run_file fs o w = (Raised (TypeError msg), w)).
Proof.
  split_and!.
  - intros A o. apply blob_op_forwards_once.
  - intros A o. apply file_op_forwards_once.
  - intros A o. apply run_blob_rejected.
  - intros A o. apply run_file_rejected.
Qed.

End construction.

(** ** Round trips through the store model *)

Section store.
Implicit Types (s : Store.t) (w : world Store.t) (self : WasbHook.t).

Lemma on_client_ok {X} kind c (body : Store.t → outcome X * Store.t) s :
  Store.clients s !! c = Some kind → Store.on_client kind c body s = body s.
Proof.
  intros H. unfold Store.on_client. rewrite H. by rewrite decide_True.
Qed.

Lemma on_client_returned {X} kind c (body : Store.t → outcome X * Store.t)
    s s' x :
  Store.on_client kind c body s = (Returned x, s') →
  Store.clients s !! c = Some kind ∧ body s = (Returned x, s').
Proof.
  unfold Store.on_client, Store.fail.
  destruct (Store.clients s !! c) as [k|]; [|done].
  destruct (decide (k = kind)) as [->|]; [done|done].
Qed.

Lemma create_blob_from_text_returned c n text s s' v :
  Store.create_blob_from_text c n text s = (Returned v, s') →
  Store.read_blob c n s' = Some text ∧ Store.clients s' = Store.clients s.
Proof.
  unfold Store.create_blob_from_text, Store.read_blob, Store.azure, Store.fail.
  destruct (Store.containers s !! c) as [blobs|]; [|done].
  intros [= _ <-]. simpl. split; [|done].
  rewrite lookup_insert_eq. simpl. by rewrite lookup_insert_eq.
Qed.

Lemma create_blob_from_path_returned c n path s s' v :
  Store.create_blob_from_path c n path s = (Returned v, s') →
  ∃ text, Store.local_files s !! path = Some text ∧
          Store.read_blob c n s' = Some text ∧
          Store.clients s' = Store.clients s.
Proof.
  unfold Store.create_blob_from_path, Store.fail.
  destruct (Store.local_files s !! path) as [text|]; [|done].
  intros H. exists text. split; [done|].
  by eapply create_blob_from_text_returned.
Qed.

(** A returned upload has stored the text under the name, on a client that is
    still a client afterwards. *)
Lemma load_string_returned self data c n k w w1 r :
  WasbHook.load_string self data c n k w = (Returned r, w1) →
  Store.clients (ext_state w1) !! WasbHook.connection self
    = Some Store.BlobService ∧
  Store.read_blob c n (ext_state w1) = Some data.
Proof.
  unfold WasbHook.load_string. rewrite bind_run, call_run.
  destruct (answer _ (ext_state w)) as [[v|err] s1] eqn:Ha; simpl; [|done].
  intros [= _ <-]. simpl.
  apply on_client_returned in Ha as [Hc Ha].
  apply create_blob_from_text_returned in Ha as [Hr Hcl].
  by rewrite Hcl.
Qed.

Lemma load_file_returned self path c n k w w1 r :
  WasbHook.load_file self path c n k w = (Returned r, w1) →
  Store.clients (ext_state w1) !! WasbHook.connection self
    = Some Store.BlobService ∧
  ∃ text, Store.local_files (ext_state w) !! path = Some text ∧
          Store.read_blob c n (ext_state w1) = Some text.
Proof.
  unfold WasbHook.load_file. rewrite bind_run, call_run.
  destruct (answer _ (ext_state w)) as [[v|err] s1] eqn:Ha; simpl; [|done].
  intros [= _ <-]. simpl.
  apply on_client_returned in Ha as [Hc Ha].
  apply create_blob_from_path_returned in Ha as (text & Hf & Hr & Hcl).
  rewrite Hcl. eauto.
Qed.

Lemma check_for_blob_store self c n k w :
  Store.clients (ext_state w) !! WasbHook.connection self
    = Some Store.BlobService →
  (WasbHook.check_for_blob self c n k w).1
  = Returned (bool_decide (is_Some (Store.read_blob c n (ext_state w)))).
Proof.
  intros Hc. unfold WasbHook.check_for_blob. rewrite call_run. simpl.
  unfold answer, Store.env. simpl. by rewrite (on_client_ok _ _ _ _ Hc).
Qed.

Lemma get_blob_to_path_store self c n path k w text :
  Store.clients (ext_state w) !! WasbHook.connection self
    = Some Store.BlobService →
  Store.read_blob c n (ext_state w) = Some text →
  ∃ w2, WasbHook.get_blob_to_path self c n path k w
        = (Returned (mkBlob n (String.length text)), w2) ∧
        Store.local_files (ext_state w2) !! path = Some text.
Proof.
  intros Hc Hr. unfold WasbHook.get_blob_to_path. rewrite call_run. simpl.
  unfold answer, Store.env. simpl. rewrite (on_client_ok _ _ _ _ Hc).
  unfold Store.get_blob_to_path. rewrite Hr. simpl.
  eexists. split; [done|]. simpl. by rewrite lookup_insert_eq.
Qed.

(** C3. In the store model, once [load_string("hello", c, "f.txt")] has
    returned, [get_blob_to_path(c, "f.txt", tmp)] returns and the local file
    at [tmp] holds exactly ["hello"]. *)
Theorem load_string_then_get_blob_to_path
    self (c tmp : string) w w1 (r : pyval) :
  WasbHook.load_string self "hello" c "f.txt" ∅ w = (Returned r, w1) →
  ∃ blob w2,
    WasbHook.get_blob_to_path self c "f.txt" tmp ∅ w1 = (Returned blob, w2) ∧
    Store.local_files (ext_state w2) !! tmp = Some "hello".
Proof.
  intros Hup. apply load_string_returned in Hup as [Hc Hr].
  destruct (get_blob_to_path_store self c "f.txt" tmp ∅ w1 "hello" Hc Hr)
    as (w2 & Hget & Hfile).
  eauto.
Qed.

(** C8. In the store model, [check_for_blob(c, n)] returns [False] while
    nothing is stored in [c] under exactly the name [n], and returns [True]
    right after an upload of that name into [c] has returned, be it
    [load_string] or [load_file]. *)
Theorem check_for_blob_follows_upload self (c n : string) w :
  (Store.clients (ext_state w) !! WasbHook.connection self
     = Some Store.BlobService →
   Store.read_blob c n (ext_state w) = None →
   ∀ k, (WasbHook.check_for_blob self c n k w).1 = Returned false) ∧
  (∀ data k r w1,
     WasbHook.load_string self data c n k w = (Returned r, w1) →
     ∀ k', (WasbHook.check_for_blob self c n k' w1).1 = Returned true) ∧
  (∀ path k r w1,
     WasbHook.load_file self path c n k w = (Returned r, w1) →
     ∀ k', (WasbHook.check_for_blob self c n k' w1).1 = Returned true).
Proof.
  split_and!.
  - intros Hc Hr k. rewrite (check_for_blob_store _ _ _ _ _ Hc), Hr.
    by rewrite bool_decide_eq_false_2; [|apply is_Some_None].
  - intros data k r w1 Hup k'.
    apply load_string_returned in Hup as [Hc Hr].
    rewrite (check_for_blob_store _ _ _ _ _ Hc), Hr.
    by rewrite bool_decide_eq_true_2.
  - intros path k r w1 Hup k'.
    apply load_file_returned in Hup as (Hc & text & _ & Hr).
    rewrite (check_for_blob_store _ _ _ _ _ Hc), Hr.
    by rewrite bool_decide_eq_true_2.
Qed.

End store.

(** ** Prefixes *)

Lemma nonempty_true {A} (l : list A) : nonempty l = true ↔ l ≠ [].
Proof.
  unfold nonempty. rewrite bool_decide_eq_true.
  destruct l; simpl; split; (done || lia).
Qed.

(** The blobs of a container whose name starts with a prefix: none is found
    exactly when the first page of size one is empty. *)
Lemma first_match_nonempty (prefix : string) (blobs : gmap string string) :
  nonempty (Store.props <$>
              take 1 (filter (Store.has_prefix prefix) (map_to_list blobs)))
    = true
  ↔ ∃ name text, blobs !! name = Some text ∧ String.prefix prefix name = true.
Proof.
  rewrite nonempty_true.
  destruct (filter _ _) as [|[name text] found] eqn:Hf; simpl.
  - split; [done|]. intros (name & text & Hl & Hp).
    apply (filter_nil_not_elem_of _ _ (name, text)) in Hf; [|done].
    destruct Hf. by apply elem_of_map_to_list.
  - split; [|done]. intros _.
    assert (Hin : (name, text) ∈ filter (Store.has_prefix prefix)
                                   (map_to_list blobs))
      by (rewrite Hf; left).
    apply list_elem_of_filter in Hin as [Hp Hin].
    apply elem_of_map_to_list in Hin. eauto.
Qed.

(** C2. [check_for_prefix(c, p)] makes one external call, [list_blobs] for
    (c, p) with [num_results=1], and returns whether the result is
    non-empty (or raises what the call raises). In the store model the
    answer is [True] exactly when at least one blob of the container has a
    name starting with [p], however many there are, and [False] exactly when
    none has. *)
Theorem check_for_prefix_lists_one :
  (∀ S (E : Env S) (self : WasbHook.t) (c p : string) (w : world S),
     let request :=
       List_blobs (WasbHook.connection self) c p {["num_results" := VInt 1]} in
     trace (WasbHook.check_for_prefix self c p ∅ w).2
       = trace w ++ [Ev request] ∧
     (WasbHook.check_for_prefix self c p ∅ w).1
       = match (answer request (ext_state w)).1 with
         | Returned matches => Returned (bool_decide (matches ≠ []))
         | Raised e => Raised e
         end) ∧
  (∀ (self : WasbHook.t) (c p : string) (w : world Store.t) blobs,
     Store.clients (ext_state w) !! WasbHook.connection self
       = Some Store.BlobService →
     Store.containers (ext_state w) !! c = Some blobs →
     ∃ b : bool,
       (WasbHook.check_for_prefix self c p ∅ w).1 = Returned b ∧
       (b = true ↔ ∃ name text,
          blobs !! name = Some text ∧ String.prefix p name = true) ∧
       (b = false ↔ ∀ name text,
          blobs !! name = Some text → String.prefix p name = false)).
Proof.
  split.
  - intros S E self c p w request.
    rewrite check_for_prefix_run by apply lookup_empty.
    rewrite insert_empty. fold request. rewrite bind_run, call_run.
    destruct (answer request (ext_state w)) as [[matches|err] s1]; simpl;
      [|done].
    split; [done|]. f_equal. unfold nonempty.
    apply bool_decide_ext. destruct matches; simpl; split; (done || lia).
  - intros self c p w blobs Hc Hb.
    exists (nonempty (Store.props <$>
      take 1 (filter (Store.has_prefix p) (map_to_list blobs)))).
    split_and!.
    + rewrite check_for_prefix_run by apply lookup_empty.
      rewrite bind_run, call_run.
      unfold answer, Store.env. simpl. rewrite (on_client_ok _ _ _ _ Hc).
      unfold Store.list_blobs. rewrite Hb.
      unfold Store.page_size. by rewrite lookup_insert_eq.
    + apply first_match_nonempty.
    + rewrite <- not_true_iff_false, first_match_nonempty. split.
      * intros Hno name text Hl. apply not_true_iff_false.
        intros Hp. apply Hno. eauto.
      * intros Hall (name & text & Hl & Hp).
        specialize (Hall name text Hl). congruence.
Qed.

(** ** Concrete runs on the example store *)

Lemma example_hook_built :
  WasbHook.new NoArgument (start Store.example)
  = (Returned example_hook, example_world).
Proof. vm_compute. reflexivity. Qed.

Lemma check_for_prefix_lists_one_witness :
  ∃ b : bool,
    (WasbHook.check_for_prefix example_hook "logs" "2017/" ∅ example_world).1
      = Returned b ∧
    (b = true ↔ ∃ name text,
       example_blobs !! name = Some text ∧ String.prefix "2017/" name = true) ∧
    (b = false ↔ ∀ name text,
       example_blobs !! name = Some text → String.prefix "2017/" name = false).
Proof.
  apply (proj2 check_for_prefix_lists_one
           example_hook "logs" "2017/" example_world example_blobs).
  - vm_compute. reflexivity.
  - vm_compute. reflexivity.
Defined.

Lemma load_string_then_get_blob_to_path_witness :
  let w1 := (WasbHook.load_string example_hook "hello" "logs" "f.txt" ∅
               example_world).2 in
  WasbHook.load_string example_hook "hello" "logs" "f.txt" ∅ example_world
    = (Returned VNone, w1) ∧
  ∃ blob w2,
    WasbHook.get_blob_to_path example_hook "logs" "f.txt" "/tmp/out" ∅ w1
      = (Returned blob, w2) ∧
    Store.local_files (ext_state w2) !! "/tmp/out" = Some "hello".
Proof.
  intros w1.
  assert (H : WasbHook.load_string example_hook "hello" "logs" "f.txt" ∅
                example_world = (Returned VNone, w1))
    by (vm_compute; reflexivity).
  split; [exact H|].
  exact (load_string_then_get_blob_to_path example_hook "logs" "/tmp/out"
           example_world w1 VNone H).
Defined.

Lemma construction_binds_one_client_witness :
  (WasbHook.init "wasb_default" (start Store.example)
     = (Returned example_hook, example_world) ∧
   ∀ A (o : blob_op A) w1, stays_on 0 (run_blob example_hook o) w1) ∧
  (FileShareHook.init "wasb_default" (start Store.example)
     = (Returned example_file_hook, example_file_world) ∧
   ∀ A (o : file_op A) w1, stays_on 0 (run_file example_file_hook o) w1).
Proof.
  assert (Hb : WasbHook.init "wasb_default" (start Store.example)
                 = (Returned example_hook, example_world))
    by (vm_compute; reflexivity).
  assert (Hf : FileShareHook.init "wasb_default" (start Store.example)
                 = (Returned example_file_hook, example_file_world))
    by (vm_compute; reflexivity).
  split.
  - split; [exact Hb|].
    exact (proj2 (proj2 (proj1 construction_binds_one_client
                           _ _ _ _ Hb))).
  - split; [exact Hf|].
    exact (proj2 (proj2 (proj2 construction_binds_one_client
                           _ _ _ _ Hf))).
Defined.

(** A method call on a constructed instance that resolves the connection
    again: [hook.get_conn()] looks ['wasb_default'] up a second time. *)
Lemma get_conn_resolves_again :
  WasbHook.new NoArgument (start Store.example)
    = (Returned example_hook, example_world) ∧
  ¬ stays_on (WasbHook.connection example_hook)
      (run_wasb_method example_hook Wasb_get_conn) example_world.
Proof.
  split; [apply example_hook_built|].
  intros (l & Htr & Hall).
  change (run_wasb_method example_hook Wasb_get_conn)
    with (build_client (S:=Store.t) "BlockBlobService" BlockBlobService_new
            "wasb_default") in Htr.
  destruct (build_client_trace (S:=Store.t) "BlockBlobService"
              BlockBlobService_new "wasb_default" example_world) as [l' Hl'].
  rewrite Hl' in Htr. apply app_inv_head in Htr. subst l.
  by inversion Hall.
Qed.

Lemma init_fails_before_client_is_built_witness :
  answer (Get_connection "nope") (ext_state (start Store.example))
    = (Raised (AirflowException "The conn_id `nope` isn't defined"),
       Store.example) ∧
  WasbHook.init "nope" (start Store.example)
    = (Raised (AirflowException "The conn_id `nope` isn't defined"),
       mkWorld Store.example [Ev (Get_connection "nope")]) ∧
  FileShareHook.init "nope" (start Store.example)
    = (Raised (AirflowException "The conn_id `nope` isn't defined"),
       mkWorld Store.example [Ev (Get_connection "nope")]).
Proof.
  assert (H : answer (Get_connection "nope") (ext_state (start Store.example))
              = (Raised (AirflowException "The conn_id `nope` isn't defined"),
                 Store.example))
    by (vm_compute; reflexivity).
  split; [exact H|].
  exact (init_fails_before_client_is_built "nope" (start Store.example)
           _ _ H).
Defined.

Lemma operations_forward_once_witness :
  forwards_once 0
    (run_blob example_hook (Blob_to_path "logs" "missing" "/tmp/out" ∅))
    example_world ∧
  forwards_once 0
    (run_file example_file_hook
       (Check_for_file "share" None (Some "notes.txt") ∅))
    example_file_world ∧
  (∃ msg,
     run_blob example_hook
       (Check_for_blob "logs" "f.txt" {["blob_name" := VStr "g.txt"]})
       example_world
     = (Raised (TypeError msg), example_world)) ∧
  (∃ msg,
     run_file example_file_hook
       (File_load_string "text" "share" "" "f.txt"
          {["share_name" := VStr "other"]})
       example_file_world
     = (Raised (TypeError msg), example_file_world)).
Proof.
  split_and!.
  - apply (proj1 (operations_forward_once example_hook example_file_hook
                    example_world)).
    vm_compute. reflexivity.
  - apply (proj1 (proj2 (operations_forward_once example_hook
                           example_file_hook example_file_world))).
    vm_compute. reflexivity.
  - apply (proj1 (proj2 (proj2 (operations_forward_once example_hook
                                  example_file_hook example_world)))).
    vm_compute. reflexivity.
  - apply (proj2 (proj2 (proj2 (operations_forward_once example_hook
                                  example_file_hook example_file_world)))).
    vm_compute. reflexivity.
Defined.

(** An operation that makes no request: [check_for_prefix] with a
    [num_results] option raises a [TypeError] of the call site. *)
Lemma check_for_prefix_num_results_makes_no_request :
  WasbHook.new NoArgument (start Store.example)
    = (Returned example_hook, example_world) ∧
  ¬ forwards_once (WasbHook.connection example_hook)
      (run_blob example_hook
         (Check_for_prefix "logs" "2017/" {["num_results" := VInt 5]}))
      example_world.
Proof.
  split; [apply example_hook_built|].
  intros (X & e & _ & Htr & _).
  destruct (run_blob_rejected (S:=Store.t) example_hook
              (Check_for_prefix "logs" "2017/" {["num_results" := VInt 5]})
              example_world) as [msg Hm].
  { vm_compute. reflexivity. }
  rewrite Hm in Htr. simpl in Htr.
  apply (f_equal length) in Htr. rewrite length_app in Htr.
  simpl in Htr. lia.
Qed.

Lemma check_for_blob_follows_upload_witness :
  (WasbHook.check_for_blob example_hook "logs" "f.txt" ∅ example_world).1
    = Returned false ∧
  (WasbHook.check_for_blob example_hook "logs" "f.txt" ∅
     (WasbHook.load_string example_hook "hello" "logs" "f.txt" ∅
        example_world).2).1 = Returned true ∧
  (WasbHook.check_for_blob example_hook "logs" "f.txt" ∅
     (WasbHook.load_file example_hook "/tmp/in.txt" "logs" "f.txt" ∅
        example_world).2).1 = Returned true.
Proof.
  pose proof (check_for_blob_follows_upload example_hook "logs" "f.txt"
                example_world) as (H0 & H1 & H2).
  split_and!.
  - apply H0; vm_compute; reflexivity.
  - apply (H1 "hello" ∅ VNone). vm_compute. reflexivity.
  - apply (H2 "/tmp/in.txt" ∅ VNone). vm_compute. reflexivity.
Defined.

(** A record whose options repeat a credential: the constructor call is
    never entered, the lookup stays the only external call. *)
Example init_with_repeated_credential :
  (WasbHook.init "broken" (start Store.example)).1
    = Raised (TypeError
        "BlockBlobService() got multiple values for keyword argument 'account_name'") ∧
  trace (WasbHook.init "broken" (start Store.example)).2
    = [Ev (Get_connection "broken")].
Proof. split; vm_compute; reflexivity. Qed.

(** The three existence checks of the file share, as the store answers. *)
Example check_for_file_on_example :
  (FileShareHook.check_for_file example_file_hook "share" None None ∅
     example_file_world).1 = Returned true ∧
  (FileShareHook.check_for_file example_file_hook "share" (Some "2017") None ∅
     example_file_world).1 = Returned false ∧
  (FileShareHook.check_for_file example_file_hook "share" None
     (Some "notes.txt") ∅ example_file_world).1 = Returned true.
Proof. split_and!; vm_compute; reflexivity. Qed.

(** The store answers an upload with the length of the text; the hook
    returns [None]. *)
Example load_string_discards_on_example :
  (answer (Create_blob_from_text 0 "logs" "f.txt" "hello" ∅)
     (ext_state example_world)).1 = Returned (VInt 5) ∧
  (WasbHook.load_string example_hook "hello" "logs" "f.txt" ∅
     example_world).1 = Returned VNone.
Proof. split; vm_compute; reflexivity. Qed.

(** A download of a blob that is not there: the error of the SDK comes out
    of the hook as it is. *)
Example get_blob_to_path_not_found_on_example :
  (WasbHook.get_blob_to_path example_hook "logs" "missing" "/tmp/out" ∅
     example_world).1 = Raised (AzureException NotFound).
Proof. vm_compute. reflexivity. Qed.

(** * Further properties of the two classes *)

(** ** Construction: the remaining outcomes *)

Section construction_outcomes.
Context {S : Type} `{!Env S}.

Lemma merge_repeated_credential fname k1 v1 k2 v2 (d : kwargs) :
  is_Some (d !! k1) ∨ is_Some (d !! k2) →
  ∃ msg, merge_keywords fname [(k1, v1); (k2, v2)] d = Raised (TypeError msg).
Proof.
  intros H. simpl. destruct (d !! k1) as [x|]; [by eexists|].
  destruct H as [[x H]|[x H]]; [done|]. rewrite H. by eexists.
Qed.

Lemma build_client_repeated fname new id (w : world S) conn s1 :
  answer (Get_connection id) (ext_state w) = (Returned conn, s1) →
  is_Some (extra_dejson conn !! "account_name")
  ∨ is_Some (extra_dejson conn !! "account_key") →
  ∃ msg, build_client fname new id w
         = (Raised (TypeError msg),
            mkWorld s1 (trace w ++ [Ev (Get_connection id)])).
Proof.
  intros Hl Hrep. unfold build_client.
  rewrite bind_run, call_run, Hl. simpl.
  rewrite bind_run. unfold keywords, lift.
  destruct (merge_repeated_credential fname "account_name"
              (VStr (login conn)) "account_key" (VStr (password conn))
              (extra_dejson conn) Hrep) as [msg ->].
  by exists msg.
Qed.

Lemma build_client_outcome fname new id (w : world S) conn s1 :
  answer (Get_connection id) (ext_state w) = (Returned conn, s1) →
  extra_dejson conn !! "account_name" = None →
  extra_dejson conn !! "account_key" = None →
  build_client fname new id w
  = ((answer (new (service_keywords conn)) s1).1,
     mkWorld (answer (new (service_keywords conn)) s1).2
       (trace w ++ [Ev (Get_connection id);
                    Ev (new (service_keywords conn))])).
Proof.
  intros Hl Hn Hk. unfold build_client.
  rewrite bind_run, call_run, Hl. simpl.
  rewrite bind_run. unfold keywords, lift. simpl. rewrite Hn, Hk.
  rewrite call_run. simpl.
  change (<["account_name" := _]> _) with (service_keywords conn).
  by rewrite <- (assoc_L (++)).
Qed.

(** X1. When the options of the connection record already hold
    [account_name] or [account_key], [__init__] of either hook raises a
    [TypeError]: the keyword is given twice in the constructor call, which is
    never entered. The lookup is the only external call made. *)
Theorem init_rejects_repeated_credential
    (id : string) (w : world S) (conn : Connection) (s1 : S) :
  answer (Get_connection id) (ext_state w) = (Returned conn, s1) →
  is_Some (extra_dejson conn !! "account_name")
  ∨ is_Some (extra_dejson conn !! "account_key") →
  (∃ msg, WasbHook.init id w
          = (Raised (TypeError msg),
             mkWorld s1 (trace w ++ [Ev (Get_connection id)]))) ∧
  (∃ msg, FileShareHook.init id w
          = (Raised (TypeError msg),
             mkWorld s1 (trace w ++ [Ev (Get_connection id)]))).
Proof.
  intros Hl Hrep. split.
  - destruct (build_client_repeated "BlockBlobService" BlockBlobService_new
                id w conn s1 Hl Hrep) as [msg Hm].
    exists msg. unfold WasbHook.init.
    by rewrite bind_run, wasb_get_conn_unfold, Hm.
  - destruct (build_client_repeated "FileService" FileService_new
                id w conn s1 Hl Hrep) as [msg Hm].
    exists msg. unfold FileShareHook.init.
    by rewrite bind_run, file_get_conn_unfold, Hm.
Qed.

(** X2. When the lookup returns a record whose options hold neither
    credential, [__init__] makes exactly two external calls, the lookup and
    one service constructor call with the record's credentials and options,
    and its outcome is the constructor's: an instance holding the identifier
    and the client returned, or the very exception the constructor raised. *)
Theorem init_outcome_is_constructor_outcome
    (id : string) (w : world S) (conn : Connection) (s1 : S) :
  answer (Get_connection id) (ext_state w) = (Returned conn, s1) →
  extra_dejson conn !! "account_name" = None →
  extra_dejson conn !! "account_key" = None →
  let blob_new := BlockBlobService_new (service_keywords conn) in
  let file_new := FileService_new (service_keywords conn) in
  WasbHook.init id w
    = (bound WasbHook.mk id (answer blob_new s1).1,
       mkWorld (answer blob_new s1).2
         (trace w ++ [Ev (Get_connection id); Ev blob_new])) ∧
  FileShareHook.init id w
    = (bound FileShareHook.mk id (answer file_new s1).1,
       mkWorld (answer file_new s1).2
         (trace w ++ [Ev (Get_connection id); Ev file_new])).
Proof.
  intros Hl Hn Hk blob_new file_new. split.
  - unfold WasbHook.init.
    rewrite bind_run, wasb_get_conn_unfold.
    rewrite (build_client_outcome _ _ _ _ _ _ Hl Hn Hk). fold blob_new.
    by destruct (answer blob_new s1) as [[c|err] s2].
  - unfold FileShareHook.init.
    rewrite bind_run, file_get_conn_unfold.
    rewrite (build_client_outcome _ _ _ _ _ _ Hl Hn Hk). fold file_new.
    by destruct (answer file_new s1) as [[c|err] s2].
Qed.

Lemma service_keywords_lookup (conn : Connection) :
  extra_dejson conn !! "account_name" = None →
  extra_dejson conn !! "account_key" = None →
  service_keywords conn !! "account_name" = Some (VStr (login conn)) ∧
  service_keywords conn !! "account_key" = Some (VStr (password conn)) ∧
  (∀ k v, extra_dejson conn !! k = Some v →
          service_keywords conn !! k = Some v) ∧
  (∀ k, k ≠ "account_name" → k ≠ "account_key" →
        service_keywords conn !! k = extra_dejson conn !! k).
Proof.
  intros Hn Hk. unfold service_keywords. split_and!.
  - by rewrite lookup_insert_eq.
  - rewrite lookup_insert_ne by done. by rewrite lookup_insert_eq.
  - intros k v Hv.
    rewrite !lookup_insert_ne; [done|congruence|congruence].
  - intros k H1 H2. by rewrite !lookup_insert_ne.
Qed.

(** X3. Whenever construction of a hook returns, the keyword dictionary
    the service constructor was called with holds the login of the record as
    [account_name], its password as [account_key], and every option of the
    record under its own key with its own value: nothing is dropped, renamed
    or overridden, and no other key is added. *)
Theorem constructor_receives_credentials_and_options :
  (∀ id (w w' : world S) hook,
     WasbHook.init id w = (Returned hook, w') →
     ∃ conn kw,
       (answer (Get_connection id) (ext_state w)).1 = Returned conn ∧
       last (trace w') = Some (Ev (BlockBlobService_new kw)) ∧
       kw !! "account_name" = Some (VStr (login conn)) ∧
       kw !! "account_key" = Some (VStr (password conn)) ∧
       (∀ k v, extra_dejson conn !! k = Some v → kw !! k = Some v) ∧
       (∀ k, k ≠ "account_name" → k ≠ "account_key" →
             kw !! k = extra_dejson conn !! k)) ∧
  (∀ id (w w' : world S) hook,
     FileShareHook.init id w = (Returned hook, w') →
     ∃ conn kw,
       (answer (Get_connection id) (ext_state w)).1 = Returned conn ∧
       last (trace w') = Some (Ev (FileService_new kw)) ∧
       kw !! "account_name" = Some (VStr (login conn)) ∧
       kw !! "account_key" = Some (VStr (password conn)) ∧
       (∀ k v, extra_dejson conn !! k = Some v → kw !! k = Some v) ∧
       (∀ k, k ≠ "account_name" → k ≠ "account_key" →
             kw !! k = extra_dejson conn !! k)).
Proof.
  split; intros id w w' hook.
  - unfold WasbHook.init. rewrite bind_run, wasb_get_conn_unfold.
    destruct (build_client _ _ _ w) as [[c|err] w1] eqn:Hb; [|done].
    intros [= <- <-].
    apply build_client_returned in Hb as (conn & s1 & Hl & Hn & Hk & _ & Ht).
    destruct (service_keywords_lookup conn Hn Hk) as (Ha & Hb & Hc & Hd).
    exists conn, (service_keywords conn).
    rewrite Hl, Ht. split_and!; try done.
    by rewrite (last_app_cons _ [_]).
  - unfold FileShareHook.init. rewrite bind_run, file_get_conn_unfold.
    destruct (build_client _ _ _ w) as [[c|err] w1] eqn:Hb; [|done].
    intros [= <- <-].
    apply build_client_returned in Hb as (conn & s1 & Hl & Hn & Hk & _ & Ht).
    destruct (service_keywords_lookup conn Hn Hk) as (Ha & Hb & Hc & Hd).
    exists conn, (service_keywords conn).
    rewrite Hl, Ht. split_and!; try done.
    by rewrite (last_app_cons _ [_]).
Qed.

End construction_outcomes.

(** ** Operations: where an exception can come from *)

Section operation_outcomes.
Context {S : Type} `{!Env S}.

Lemma call_raises_with_call {X} (e : ext X) (w : world S) :
  raises_with_call (call e) w.
Proof. exists X, e. by rewrite call_run. Qed.

Lemma call_then_raises_with_call {X A} (e : ext X) (f : X → A)
    (w : world S) :
  raises_with_call (call e ≫= λ x, mret (f x)) w.
Proof.
  exists X, e. rewrite bind_run, call_run.
  destruct (answer e (ext_state w)) as [[x|err] s']; simpl;
    (split; [done|]); intros err'; split; intros [=]; by subst.
Qed.

(** X4. Once its options are bound, a storage operation never raises on
    its own account. Leaving aside the calls whose options repeat a keyword
    that is bound already (the name of a parameter of the method, or
    [num_results] for [check_for_prefix]), which Python ends with a
    [TypeError], every operation of either hook makes one external call and
    raises exactly when that call raises, the same exception; so it returns
    whenever the call returns. *)
Theorem operation_raises_only_with_its_call
    (b : WasbHook.t) (fs : FileShareHook.t) (w : world S) :
  (∀ A (o : blob_op A),
     repeats_keyword o = false → raises_with_call (run_blob b o) w) ∧
  (∀ A (o : file_op A),
     file_repeats_keyword o = false → raises_with_call (run_file fs o) w).
Proof.
  split.
  - intros A o [Hparams Hpasses]%repeats_keyword_false.
    unfold raises_with_call. rewrite (run_blob_bound _ _ _ Hparams).
    destruct o as [c n kw|c p kw|c n path kw|c n out kw|path c n kw|data c n kw];
      simpl in *.
    + apply call_raises_with_call.
    + assert (Hn : kw !! "num_results" = None)
        by (by destruct (kw !! "num_results")).
      destruct (call_then_raises_with_call
        (List_blobs (WasbHook.connection b) c p
           (<["num_results" := VInt 1]> kw)) nonempty w) as (X & e & H).
      exists X, e. by rewrite (check_for_prefix_run _ _ _ _ _ Hn).
    + apply call_raises_with_call.
    + apply call_raises_with_call.
    + apply (call_then_raises_with_call _ (λ _, VNone)).
    + apply (call_then_raises_with_call _ (λ _, VNone)).
  - intros A o Hparams%file_repeats_keyword_false.
    unfold raises_with_call. rewrite (run_file_bound _ _ _ Hparams).
    destruct o; simpl.
    1-3: apply call_raises_with_call.
    all: apply (call_then_raises_with_call _ (λ _, VNone)).
Qed.

(** X5. [check_for_prefix] given options without [num_results] makes one
    [list_blobs] call whose keywords are those options, each under its own
    key and value, plus [num_results=1]; it returns whether the result is
    non-empty. *)
Theorem check_for_prefix_keeps_options
    (self : WasbHook.t) (c p : string) (kw : kwargs) (w : world S) :
  kw !! "num_results" = None →
  ∃ kw',
    let request := List_blobs (WasbHook.connection self) c p kw' in
    trace (WasbHook.check_for_prefix self c p kw w).2
      = trace w ++ [Ev request] ∧
    kw' !! "num_results" = Some (VInt 1) ∧
    (∀ k, k ≠ "num_results" → kw' !! k = kw !! k) ∧
    (WasbHook.check_for_prefix self c p kw w).1
      = match (answer request (ext_state w)).1 with
        | Returned matches => Returned (bool_decide (matches ≠ []))
        | Raised e => Raised e
        end.
Proof.
  intros Hkw. exists (<["num_results" := VInt 1]> kw). simpl.
  rewrite (check_for_prefix_run _ _ _ _ _ Hkw), bind_run, call_run.
  split_and!.
  - by destruct (answer _ (ext_state w)) as [[m|err] s'].
  - by rewrite lookup_insert_eq.
  - intros k Hk. by rewrite lookup_insert_ne.
  - destruct (answer _ (ext_state w)) as [[m|err] s']; simpl; [|done].
    f_equal. unfold nonempty. apply bool_decide_ext.
    destruct m; simpl; split; (done || lia).
Qed.

End operation_outcomes.

(** ** More round trips through the store model *)

Section store_round_trips.
Implicit Types (s : Store.t) (w : world Store.t).
Implicit Types (self : WasbHook.t) (fs : FileShareHook.t).

Lemma read_blob_Some c n s text :
  Store.read_blob c n s = Some text ↔
  ∃ blobs, Store.containers s !! c = Some blobs ∧ blobs !! n = Some text.
Proof.
  unfold Store.read_blob.
  destruct (Store.containers s !! c) as [blobs|]; simpl.
  - split; [by exists blobs|]. by intros (? & [= <-] & ?).
  - split; [done|]. by intros (? & ? & ?).
Qed.

Lemma check_for_prefix_store self c p w blobs :
  Store.clients (ext_state w) !! WasbHook.connection self
    = Some Store.BlobService →
  Store.containers (ext_state w) !! c = Some blobs →
  (WasbHook.check_for_prefix self c p ∅ w).1
  = Returned (nonempty (Store.props <$>
      take 1 (filter (Store.has_prefix p) (map_to_list blobs)))).
Proof.
  intros Hc Hb.
  rewrite check_for_prefix_run by apply lookup_empty.
  rewrite bind_run, call_run.
  unfold answer, Store.env. simpl. rewrite (on_client_ok _ _ _ _ Hc).
  unfold Store.list_blobs. rewrite Hb.
  unfold Store.page_size. by rewrite lookup_insert_eq.
Qed.

(** X6. In the store model, once [load_file(path, c, n)] has returned,
    [get_blob_to_path(c, n, dest)] returns the properties of a blob
    named [n] and the local file at [dest] holds what the file at [path]
    held when it was uploaded. *)
Theorem load_file_then_get_blob_to_path
    self (path c n dest : string) (k k' : kwargs) w w1 (r : pyval) :
  WasbHook.load_file self path c n k w = (Returned r, w1) →
  ∃ text w2,
    Store.local_files (ext_state w) !! path = Some text ∧
    WasbHook.get_blob_to_path self c n dest k' w1
      = (Returned (mkBlob n (String.length text)), w2) ∧
    Store.local_files (ext_state w2) !! dest = Some text.
Proof.
  intros Hup. apply load_file_returned in Hup as (Hc & text & Hf & Hr).
  destruct (get_blob_to_path_store self c n dest k' w1 text Hc Hr)
    as (w2 & Hget & Hd).
  eauto.
Qed.

Lemma get_blob_to_stream_store self c n out k w text written :
  Store.clients (ext_state w) !! WasbHook.connection self
    = Some Store.BlobService →
  Store.read_blob c n (ext_state w) = Some text →
  Store.streams (ext_state w) !! out = Some written →
  ∃ w2, WasbHook.get_blob_to_stream self c n out k w
        = (Returned (mkBlob n (String.length text)), w2) ∧
        Store.streams (ext_state w2) !! out = Some (written +:+ text).
Proof.
  intros Hc Hr Hs. unfold WasbHook.get_blob_to_stream.
  rewrite call_run. simpl.
  unfold answer, Store.env. simpl. rewrite (on_client_ok _ _ _ _ Hc).
  unfold Store.get_blob_to_stream. rewrite Hr, Hs. simpl.
  eexists. split; [done|]. simpl. by rewrite lookup_insert_eq.
Qed.

Lemma load_string_keeps_streams self data c n k w w1 r :
  WasbHook.load_string self data c n k w = (Returned r, w1) →
  Store.streams (ext_state w1) = Store.streams (ext_state w).
Proof.
  unfold WasbHook.load_string. rewrite bind_run, call_run.
  destruct (answer _ (ext_state w)) as [[v|err] s1] eqn:Ha; simpl; [|done].
  intros [= _ <-]. simpl.
  apply on_client_returned in Ha as [_ Ha].
  unfold Store.create_blob_from_text, Store.azure, Store.fail in Ha.
  destruct (Store.containers (ext_state w) !! c); [|done].
  by injection Ha as _ <-.
Qed.

(** X7. In the store model, once [load_string(data, c, n)] has returned,
    [get_blob_to_stream(c, n, stream)] on an open stream returns and has
    appended exactly [data] to what the stream already held. *)
Theorem load_string_then_get_blob_to_stream
    self (data c n : string) (out : stream) (written : string)
    (k k' : kwargs) w w1 (r : pyval) :
  WasbHook.load_string self data c n k w = (Returned r, w1) →
  Store.streams (ext_state w) !! out = Some written →
  ∃ w2,
    WasbHook.get_blob_to_stream self c n out k' w1
      = (Returned (mkBlob n (String.length data)), w2) ∧
    Store.streams (ext_state w2) !! out = Some (written +:+ data).
Proof.
  intros Hup Hs.
  rewrite <- (load_string_keeps_streams _ _ _ _ _ _ _ _ Hup) in Hs.
  apply load_string_returned in Hup as [Hc Hr].
  by apply get_blob_to_stream_store.
Qed.

(** X8. In the store model, once [load_string(data, c, n)] has returned,
    [check_for_prefix(c, p)] returns [True] for every prefix [p] of the
    name [n], the empty prefix and [n] itself included. *)
Theorem load_string_then_check_for_prefix
    self (data c n p : string) (k : kwargs) w w1 (r : pyval) :
  WasbHook.load_string self data c n k w = (Returned r, w1) →
  String.prefix p n = true →
  (WasbHook.check_for_prefix self c p ∅ w1).1 = Returned true.
Proof.
  intros Hup Hp. apply load_string_returned in Hup as [Hc Hr].
  apply read_blob_Some in Hr as (blobs & Hb & Hn).
  rewrite (check_for_prefix_store _ _ _ _ _ Hc Hb). f_equal.
  apply first_match_nonempty. eauto.
Qed.

(** X9. In the store model, [check_for_prefix(c, "")] tells whether the
    container holds any blob at all: with the empty prefix it returns
    [True] exactly when the container is not empty. *)
Theorem check_for_empty_prefix self (c : string) w blobs :
  Store.clients (ext_state w) !! WasbHook.connection self
    = Some Store.BlobService →
  Store.containers (ext_state w) !! c = Some blobs →
  ∃ b : bool,
    (WasbHook.check_for_prefix self c "" ∅ w).1 = Returned b ∧
    (b = true ↔ blobs ≠ ∅).
Proof.
  intros Hc Hb. eexists. split; [by apply check_for_prefix_store|].
  rewrite first_match_nonempty. split.
  - intros (name & text & Hl & _) ->. by rewrite lookup_empty in Hl.
  - intros Hne. apply map_choose in Hne as (name & text & Hl).
    exists name, text. split; [done|]. by destruct name.
Qed.

(** *** The file share *)

Lemma read_file_Some sh d f s text :
  Store.read_file sh d f s = Some text ↔
  ∃ dirs files, Store.shares s !! sh = Some dirs ∧
                dirs !! d = Some files ∧ files !! f = Some text.
Proof.
  unfold Store.read_file.
  destruct (Store.shares s !! sh) as [dirs|]; simpl.
  - destruct (dirs !! d) as [files|] eqn:Hd; simpl.
    + split; [by exists dirs, files|].
      intros (? & ? & [= <-] & Hd' & ?). by rewrite Hd in Hd'; simplify_eq.
    + split; [done|]. intros (? & ? & [= <-] & Hd' & ?). congruence.
  - split; [done|]. by intros (? & ? & ? & ?).
Qed.

Lemma create_file_from_text_returned sh d f text s s' v :
  Store.create_file_from_text sh d f text s = (Returned v, s') →
  Store.read_file sh d f s' = Some text ∧
  Store.clients s' = Store.clients s ∧
  Store.local_files s' = Store.local_files s.
Proof.
  unfold Store.create_file_from_text, Store.azure, Store.fail.
  destruct (Store.shares s !! sh) as [dirs|]; [|done].
  destruct (dirs !! d) as [files|]; [|done].
  intros [= _ <-]. simpl. split; [|done].
  apply read_file_Some. eexists _, _. simpl.
  split_and!; by rewrite lookup_insert_eq.
Qed.

Lemma file_load_string_returned fs data sh d f k w w1 r :
  FileShareHook.load_string fs data sh d f k w = (Returned r, w1) →
  Store.clients (ext_state w1) !! FileShareHook.connection fs
    = Some Store.FileService ∧
  Store.read_file sh d f (ext_state w1) = Some data.
Proof.
  unfold FileShareHook.load_string. rewrite bind_run, call_run.
  destruct (answer _ (ext_state w)) as [[v|err] s1] eqn:Ha; simpl; [|done].
  intros [= _ <-]. simpl.
  apply on_client_returned in Ha as [Hc Ha].
  apply create_file_from_text_returned in Ha as (Hr & Hcl & _).
  by rewrite Hcl.
Qed.

Lemma file_load_file_returned fs path sh d f k w w1 r :
  FileShareHook.load_file fs path sh d f k w = (Returned r, w1) →
  Store.clients (ext_state w1) !! FileShareHook.connection fs
    = Some Store.FileService ∧
  ∃ text, Store.local_files (ext_state w) !! path = Some text ∧
          Store.read_file sh d f (ext_state w1) = Some text.
Proof.
  unfold FileShareHook.load_file. rewrite bind_run, call_run.
  destruct (answer _ (ext_state w)) as [[v|err] s1] eqn:Ha; simpl; [|done].
  intros [= _ <-]. simpl.
  apply on_client_returned in Ha as [Hc Ha].
  unfold Store.create_file_from_path, Store.fail in Ha.
  destruct (Store.local_files (ext_state w) !! path) as [text|]; [|done].
  apply create_file_from_text_returned in Ha as (Hr & Hcl & _).
  rewrite Hcl. eauto.
Qed.

Lemma get_file_to_path_store fs sh d f path k w text :
  Store.clients (ext_state w) !! FileShareHook.connection fs
    = Some Store.FileService →
  Store.read_file sh d f (ext_state w) = Some text →
  ∃ w2, FileShareHook.get_file_to_path fs sh d f path k w
        = (Returned (mkFile f (String.length text)), w2) ∧
        Store.local_files (ext_state w2) !! path = Some text.
Proof.
  intros Hc Hr. unfold FileShareHook.get_file_to_path.
  rewrite call_run. simpl.
  unfold answer, Store.env. simpl. rewrite (on_client_ok _ _ _ _ Hc).
  unfold Store.get_file_to_path. rewrite Hr. simpl.
  eexists. split; [done|]. simpl. by rewrite lookup_insert_eq.
Qed.

Lemma check_for_file_store fs sh d f k w :
  Store.clients (ext_state w) !! FileShareHook.connection fs
    = Some Store.FileService →
  (FileShareHook.check_for_file fs sh d f k w).1
  = (Store.file_exists sh d f (ext_state w)).1.
Proof.
  intros Hc. unfold FileShareHook.check_for_file. rewrite call_run. simpl.
  unfold answer, Store.env. simpl. by rewrite (on_client_ok _ _ _ _ Hc).
Qed.

(** X10. In the store model, once [FileShareHook.load_string(data, share,
    directory, file)] has returned, [get_file_to_path(share, directory,
    file, dest)] returns and the local file at [dest] holds exactly [data];
    and [check_for_file] answers [True] for the file, for its directory and
    for the share. *)
Theorem file_load_string_then_get_file_to_path
    fs (data sh d f dest : string) (k k' : kwargs) w w1 (r : pyval) :
  FileShareHook.load_string fs data sh d f k w = (Returned r, w1) →
  (∃ w2,
     FileShareHook.get_file_to_path fs sh d f dest k' w1
       = (Returned (mkFile f (String.length data)), w2) ∧
     Store.local_files (ext_state w2) !! dest = Some data) ∧
  (FileShareHook.check_for_file fs sh (Some d) (Some f) k' w1).1
    = Returned true ∧
  (FileShareHook.check_for_file fs sh (Some d) None k' w1).1
    = Returned true ∧
  (FileShareHook.check_for_file fs sh None None k' w1).1 = Returned true.
Proof.
  intros Hup. apply file_load_string_returned in Hup as [Hc Hr].
  split; [by apply get_file_to_path_store|].
  rewrite !(check_for_file_store _ _ _ _ _ _ Hc).
  unfold Store.file_exists. simpl.
  pose proof Hr as (dirs & files & Hs & Hd & Hf)%read_file_Some.
  rewrite Hs, Hr, Hd. by rewrite !bool_decide_eq_true_2.
Qed.

(** X11. In the store model, once [FileShareHook.load_file(path, share,
    directory, file)] has returned, [get_file_to_path(share, directory,
    file, dest)] returns and the local file at [dest] holds what the file at
    [path] held when it was uploaded. *)
Theorem file_load_file_then_get_file_to_path
    fs (path sh d f dest : string) (k k' : kwargs) w w1 (r : pyval) :
  FileShareHook.load_file fs path sh d f k w = (Returned r, w1) →
  ∃ text w2,
    Store.local_files (ext_state w) !! path = Some text ∧
    FileShareHook.get_file_to_path fs sh d f dest k' w1
      = (Returned (mkFile f (String.length text)), w2) ∧
    Store.local_files (ext_state w2) !! dest = Some text.
Proof.
  intros Hup. apply file_load_file_returned in Hup as (Hc & text & Hf & Hr).
  destruct (get_file_to_path_store fs sh d f dest k' w1 text Hc Hr)
    as (w2 & Hget & Hd).
  eauto.
Qed.

End store_round_trips.

(** ** Concrete runs for the further properties *)

Lemma init_rejects_repeated_credential_witness :
  (∃ msg, WasbHook.init "broken" (start Store.example)
          = (Raised (TypeError msg),
             mkWorld Store.example [Ev (Get_connection "broken")])) ∧
  (∃ msg, FileShareHook.init "broken" (start Store.example)
          = (Raised (TypeError msg),
             mkWorld Store.example [Ev (Get_connection "broken")])).
Proof.
  apply (init_rejects_repeated_credential "broken" (start Store.example)
           (mkConnection "acct" "key" {[ "account_name" := VStr "other" ]})
           Store.example).
  - vm_compute. reflexivity.
  - left. exists (VStr "other"). vm_compute. reflexivity.
Defined.

Lemma init_outcome_is_constructor_outcome_witness :
  (WasbHook.init "wasb_default" (start example_denied)).1
    = Raised (AzureException AuthenticationFailure) ∧
  (FileShareHook.init "wasb_default" (start example_denied)).1
    = Raised (AzureException AuthenticationFailure).
Proof.
  destruct (init_outcome_is_constructor_outcome "wasb_default"
              (start example_denied) (mkConnection "acct" "wrong" ∅)
              example_denied) as [Hb Hf].
  - vm_compute. reflexivity.
  - vm_compute. reflexivity.
  - vm_compute. reflexivity.
  - rewrite Hb, Hf. split; vm_compute; reflexivity.
Defined.

Lemma constructor_receives_credentials_and_options_witness :
  WasbHook.init "wasb_default" (start Store.example)
    = (Returned example_hook, example_world) ∧
  ∃ conn kw,
    (answer (Get_connection "wasb_default")
       (ext_state (start Store.example))).1 = Returned conn ∧
    last (trace example_world) = Some (Ev (BlockBlobService_new kw)) ∧
    kw !! "account_name" = Some (VStr (login conn)) ∧
    kw !! "account_key" = Some (VStr (password conn)) ∧
    (∀ k v, extra_dejson conn !! k = Some v → kw !! k = Some v) ∧
    (∀ k, k ≠ "account_name" → k ≠ "account_key" →
          kw !! k = extra_dejson conn !! k).
Proof.
  assert (Hb : WasbHook.init "wasb_default" (start Store.example)
                 = (Returned example_hook, example_world))
    by (vm_compute; reflexivity).
  split; [exact Hb|].
  exact (proj1 constructor_receives_credentials_and_options _ _ _ _ Hb).
Defined.

Lemma operation_raises_only_with_its_call_witness :
  raises_with_call
    (run_blob example_hook (Blob_to_path "logs" "missing" "/tmp/out" ∅))
    example_world ∧
  raises_with_call
    (run_file example_file_hook
       (File_to_path "share" "" "missing" "/tmp/out" ∅))
    example_file_world.
Proof.
  split.
  - apply (proj1 (operation_raises_only_with_its_call example_hook
                    example_file_hook example_world)).
    vm_compute. reflexivity.
  - apply (proj2 (operation_raises_only_with_its_call example_hook
                    example_file_hook example_file_world)).
    vm_compute. reflexivity.
Defined.

Lemma check_for_prefix_keeps_options_witness :
  ∃ kw',
    trace (WasbHook.check_for_prefix example_hook "logs" "2017/"
             {["timeout" := VInt 30]} example_world).2
      = trace example_world ++ [Ev (List_blobs 0 "logs" "2017/" kw')] ∧
    kw' !! "num_results" = Some (VInt 1) ∧
    (∀ k, k ≠ "num_results" →
          kw' !! k = ({["timeout" := VInt 30]} : kwargs) !! k) ∧
    (WasbHook.check_for_prefix example_hook "logs" "2017/"
       {["timeout" := VInt 30]} example_world).1
      = match (answer (List_blobs 0 "logs" "2017/" kw')
                 (ext_state example_world)).1 with
        | Returned matches => Returned (bool_decide (matches ≠ []))
        | Raised e => Raised e
        end.
Proof.
  apply (check_for_prefix_keeps_options example_hook "logs" "2017/"
           {["timeout" := VInt 30]} example_world).
  vm_compute. reflexivity.
Defined.

Lemma load_file_then_get_blob_to_path_witness :
  ∃ text w2,
    Store.local_files (ext_state example_world) !! "/tmp/in.txt" = Some text ∧
    WasbHook.get_blob_to_path example_hook "logs" "copy.txt" "/tmp/out" ∅
      (WasbHook.load_file example_hook "/tmp/in.txt" "logs" "copy.txt" ∅
         example_world).2
      = (Returned (mkBlob "copy.txt" (String.length text)), w2) ∧
    Store.local_files (ext_state w2) !! "/tmp/out" = Some text.
Proof.
  apply (load_file_then_get_blob_to_path example_hook "/tmp/in.txt" "logs"
           "copy.txt" "/tmp/out" ∅ ∅ example_world _ VNone).
  vm_compute. reflexivity.
Defined.

Lemma load_string_then_get_blob_to_stream_witness :
  ∃ w2,
    WasbHook.get_blob_to_stream example_hook "logs" "f.txt" 3 ∅
      (WasbHook.load_string example_hook "hello" "logs" "f.txt" ∅
         example_world).2
      = (Returned (mkBlob "f.txt" (String.length "hello")), w2) ∧
    Store.streams (ext_state w2) !! 3 = Some ("" +:+ "hello").
Proof.
  apply (load_string_then_get_blob_to_stream example_hook "hello" "logs"
           "f.txt" 3 "" ∅ ∅ example_world _ VNone).
  - vm_compute. reflexivity.
  - vm_compute. reflexivity.
Defined.

Lemma load_string_then_check_for_prefix_witness :
  (WasbHook.check_for_prefix example_hook "logs" "2018/" ∅ example_world).1
    = Returned false ∧
  (WasbHook.check_for_prefix example_hook "logs" "2018/" ∅
     (WasbHook.load_string example_hook "hello" "logs" "2018/f.txt" ∅
        example_world).2).1 = Returned true.
Proof.
  split; [vm_compute; reflexivity|].
  apply (load_string_then_check_for_prefix example_hook "hello" "logs"
           "2018/f.txt" "2018/" ∅ example_world _ VNone).
  - vm_compute. reflexivity.
  - reflexivity.
Defined.

Lemma check_for_empty_prefix_witness :
  (∃ b : bool,
     (WasbHook.check_for_prefix example_hook "logs" "" ∅
        example_empty_container).1 = Returned b ∧
     (b = true ↔ (∅ : gmap string string) ≠ ∅)) ∧
  (∃ b : bool,
     (WasbHook.check_for_prefix example_hook "logs" "" ∅ example_world).1
       = Returned b ∧
     (b = true ↔ example_blobs ≠ ∅)).
Proof.
  split.
  - apply (check_for_empty_prefix example_hook "logs"
             example_empty_container ∅); vm_compute; reflexivity.
  - apply (check_for_empty_prefix example_hook "logs" example_world
             example_blobs); vm_compute; reflexivity.
Defined.

Lemma file_load_string_then_get_file_to_path_witness :
  let w1 := (FileShareHook.load_string example_file_hook "delta" "share" ""
               "new.txt" ∅ example_file_world).2 in
  (∃ w2,
     FileShareHook.get_file_to_path example_file_hook "share" "" "new.txt"
       "/tmp/out" ∅ w1
       = (Returned (mkFile "new.txt" (String.length "delta")), w2) ∧
     Store.local_files (ext_state w2) !! "/tmp/out" = Some "delta") ∧
  (FileShareHook.check_for_file example_file_hook "share" (Some "")
     (Some "new.txt") ∅ w1).1 = Returned true ∧
  (FileShareHook.check_for_file example_file_hook "share" (Some "") None ∅
     w1).1 = Returned true ∧
  (FileShareHook.check_for_file example_file_hook "share" None None ∅ w1).1
    = Returned true.
Proof.
  intros w1.
  apply (file_load_string_then_get_file_to_path example_file_hook "delta"
           "share" "" "new.txt" "/tmp/out" ∅ ∅ example_file_world w1 VNone).
  vm_compute. reflexivity.
Defined.

Lemma file_load_file_then_get_file_to_path_witness :
  ∃ text w2,
    Store.local_files (ext_state example_file_world) !! "/tmp/in.txt"
      = Some text ∧
    FileShareHook.get_file_to_path example_file_hook "share" "" "copy.txt"
      "/tmp/out" ∅
      (FileShareHook.load_file example_file_hook "/tmp/in.txt" "share" ""
         "copy.txt" ∅ example_file_world).2
      = (Returned (mkFile "copy.txt" (String.length text)), w2) ∧
    Store.local_files (ext_state w2) !! "/tmp/out" = Some text.
Proof.
  apply (file_load_file_then_get_file_to_path example_file_hook "/tmp/in.txt"
           "share" "" "copy.txt" "/tmp/out" ∅ ∅ example_file_world _ VNone).
  vm_compute. reflexivity.
Defined.

(** An option named like a parameter of the method: the call ends where its
    arguments are bound, no request is made. *)
Example check_for_blob_with_parameter_option :
  run_blob example_hook
    (Check_for_blob "logs" "f.txt" {["blob_name" := VStr "g.txt"]})
    example_world
  = (Raised (TypeError
       "check_for_blob() got multiple values for argument 'blob_name'"),
     example_world).
Proof. vm_compute. reflexivity. Qed.

Example file_load_string_with_parameter_option :
  run_file example_file_hook
    (File_load_string "text" "share" "" "f.txt"
       {["share_name" := VStr "other"]})
    example_file_world
  = (Raised (TypeError
       "load_string() got multiple values for argument 'share_name'"),
     example_file_world).
Proof. vm_compute. reflexivity. Qed.
